(** * btc-tx: the raw-transaction encoder and canonical signer of [tx.py]

    A shallow embedding of class [Transaction] (tx.py) and of the helpers it
    imports, with the properties of its wire format, of its output
    construction, of its message envelope and of its signing loop.

    Conventions.
    - Python [int] is [Z]; Python [bytes] is [list byte]; Python [str] is
      [string] (every text the program builds is hexadecimal ASCII).
    - A Python exception is the [Raise] case of [result]; evaluation order
      is the order of the binds.
    - The object's mutable fields ([self.outputs], [self.txPayload]) are
      fields of the record [Transaction], threaded explicitly. *)

From Stdlib Require Import ZArith List String Ascii Bool Lia.
From Stdlib Require Import Strings.Byte.
From Bignums Require Import BigZ.
Import ListNotations.

Local Open Scope Z_scope.

(** ** Python values and exceptions *)

Definition bytes := list byte.

Notation "a +s b" := (String.append a b) (at level 60, right associativity).

(** The exceptions that the modelled code can raise. *)
Inductive exn : Type :=
| StructError        (* struct.error: argument out of range *)
| BinasciiError      (* binascii.Error: odd length or non-hex digit *)
| AttributeError     (* a field read before it was assigned *)
| AssertionError     (* a failed [assert] *)
| ZeroDivisionError
| OverflowError
| LibraryError (what : string). (* an exception raised inside python-ecdsa *)

Inductive result (A : Type) : Type :=
| Ok (a : A)
| Raise (e : exn).

Arguments Ok {A} a.
Arguments Raise {A} e.

Definition bind {A B : Type} (c : result A) (k : A -> result B) : result B :=
  match c with
  | Ok a => k a
  | Raise e => Raise e
  end.

Notation "'let*' x ':=' c 'in' k" := (bind c (fun x => k))
  (at level 10, x pattern, c at level 100, k at level 200).

Definition is_ok {A : Type} (c : result A) : bool :=
  match c with Ok _ => true | Raise _ => false end.

(** [''.join(map(f, xs))] for an [f] that may raise: left to right, the
    first exception wins. *)
Fixpoint join_map {A : Type} (f : A -> result string) (xs : list A) : result string :=
  match xs with
  | [] => Ok EmptyString
  | x :: r =>
      let* h := f x in
      let* t := join_map f r in
      Ok (h +s t)
  end.

(** ** Bytes and integers *)

Definition byte_of_Z (z : Z) : byte :=
  match Byte.of_N (Z.to_N (z mod 256)) with
  | Some b => b
  | None => x00
  end.

Definition Z_of_byte (b : byte) : Z := Z.of_N (Byte.to_N b).

(** [n] bytes of [z], least significant first. *)
Fixpoint le_bytes (n : nat) (z : Z) : bytes :=
  match n with
  | O => []
  | S k => byte_of_Z z :: le_bytes k (z / 256)
  end.

(** [int.from_bytes(b, 'big')]. *)
Definition int_from_bytes_big (b : bytes) : Z :=
  fold_left (fun acc x => acc * 256 + Z_of_byte x) b 0.

(** [struct.pack('<L', v)] and [struct.pack('<Q', v)]: standard sizes, no
    padding; a value outside the field's range raises [struct.error]. *)
Definition struct_pack_le (width : nat) (v : Z) : result bytes :=
  if (0 <=? v) && (v <? 2 ^ (8 * Z.of_nat width))
  then Ok (le_bytes width v)
  else Raise StructError.

Definition struct_pack_ltL : Z -> result bytes := struct_pack_le 4.
Definition struct_pack_ltQ : Z -> result bytes := struct_pack_le 8.

(** [s.encode('utf-8')] on a [str] whose code points are below 256: one
    byte below 128, two bytes from 128 on. *)
Fixpoint encode_utf8 (s : string) : bytes :=
  match s with
  | EmptyString => []
  | String c r =>
      let n := Z.of_N (N_of_ascii c) in
      if n <? 128 then byte_of_Z n :: encode_utf8 r
      else byte_of_Z (192 + n / 64) :: byte_of_Z (128 + n mod 64) :: encode_utf8 r
  end.

(** ** hashlib's SHA-256 (FIPS 180-4), on 32-bit words held in [Z] *)
Module SHA256.

Definition add32 (x y : Z) : Z := (x + y) mod 2 ^ 32.

Definition rotr (n x : Z) : Z :=
  Z.lor (Z.shiftr x n) (Z.shiftl x (32 - n) mod 2 ^ 32).

Definition Ch (x y z : Z) : Z :=
  Z.lxor (Z.land x y) (Z.land (Z.lxor x 0xffffffff) z).

Definition Maj (x y z : Z) : Z :=
  Z.lxor (Z.lxor (Z.land x y) (Z.land x z)) (Z.land y z).

Definition bsig0 (x : Z) : Z := Z.lxor (Z.lxor (rotr 2 x) (rotr 13 x)) (rotr 22 x).
Definition bsig1 (x : Z) : Z := Z.lxor (Z.lxor (rotr 6 x) (rotr 11 x)) (rotr 25 x).
Definition ssig0 (x : Z) : Z := Z.lxor (Z.lxor (rotr 7 x) (rotr 18 x)) (Z.shiftr x 3).
Definition ssig1 (x : Z) : Z := Z.lxor (Z.lxor (rotr 17 x) (rotr 19 x)) (Z.shiftr x 10).

(** The round constants and the initial hash value are defined as the
    standard defines them: the first 32 bits of the fractional parts of
    the cube roots of the first 64 primes, and of the square roots of
    the first 8. *)
Definition primes : list Z :=
  [ 2; 3; 5; 7; 11; 13; 17; 19; 23; 29; 31; 37; 41; 43; 47; 53; 59; 61; 67;
    71; 73; 79; 83; 89; 97; 101; 103; 107; 109; 113; 127; 131; 137; 139; 149;
    151; 157; 163; 167; 173; 179; 181; 191; 193; 197; 199; 211; 223; 227;
    229; 233; 239; 241; 251; 257; 263; 269; 271; 277; 281; 283; 293; 307;
    311 ].

(** The integer cube root of [x], searched bit by bit below [2 ^ n]. *)
Fixpoint cube_root_bits (n : nat) (x acc : Z) : Z :=
  match n with
  | O => acc
  | S k =>
      let c := acc + 2 ^ Z.of_nat k in
      if c * c * c <=? x then cube_root_bits k x c else cube_root_bits k x acc
  end.

Definition frac_cube_root (q : Z) : Z := cube_root_bits 48 (q * 2 ^ 96) 0 mod 2 ^ 32.
Definition frac_square_root (q : Z) : Z := Z.sqrt (q * 2 ^ 64) mod 2 ^ 32.

Definition K : list Z := Eval vm_compute in map frac_cube_root primes.

Definition H0 : list Z := Eval vm_compute in map frac_square_root (firstn 8 primes).

Definition be_bytes (n : nat) (z : Z) : bytes := rev (le_bytes n z).

(** The message, a one bit, zero bits, and the bit length on 8 bytes. *)
Definition pad (msg : bytes) : bytes :=
  let len := Z.of_nat (List.length msg) in
  (msg ++ [x80] ++ repeat x00 (Z.to_nat ((55 - len) mod 64)) ++ be_bytes 8 (8 * len))%list.

Fixpoint be_words (b : bytes) : list Z :=
  match b with
  | b0 :: b1 :: b2 :: b3 :: r =>
      (((Z_of_byte b0 * 256 + Z_of_byte b1) * 256 + Z_of_byte b2) * 256 + Z_of_byte b3)
        :: be_words r
  | _ => []
  end.

(** The message schedule, most recent word first. *)
Fixpoint schedule (n : nat) (w : list Z) : list Z :=
  match n with
  | O => w
  | S k =>
      let wt := add32 (add32 (ssig1 (nth 1 w 0)) (nth 6 w 0))
                      (add32 (ssig0 (nth 14 w 0)) (nth 15 w 0)) in
      schedule k (wt :: w)
  end.

Definition round (st : list Z) (kw : Z * Z) : list Z :=
  match st with
  | [a; b; c; d; e; f; g; h] =>
      let t1 := add32 (add32 (add32 h (bsig1 e)) (add32 (Ch e f g) (fst kw))) (snd kw) in
      let t2 := add32 (bsig0 a) (Maj a b c) in
      [add32 t1 t2; a; b; c; add32 d t1; e; f; g]
  | _ => st
  end.

Definition compress (h : list Z) (block : bytes) : list Z :=
  let w := rev (schedule 48 (rev (be_words block))) in
  map (fun p => add32 (fst p) (snd p)) (combine h (fold_left round (combine K w) h)).

Fixpoint blocks (n : nat) (b : bytes) : list bytes :=
  match n with
  | O => []
  | S k => firstn 64 b :: blocks k (skipn 64 b)
  end.

Definition digest (msg : bytes) : bytes :=
  let p := pad msg in
  flat_map (be_bytes 4) (fold_left compress (blocks (List.length p / 64) p) H0).

End SHA256.

(** ** utils.py

    tx.py imports these helpers from [utils.py]; each is modelled from
    what the specification says of the wire format. *)
Module Utils.

Definition hexdigit (n : Z) : ascii :=
  if n <? 10 then ascii_of_N (Z.to_N (48 + n)) else ascii_of_N (Z.to_N (87 + n)).

(** Modelled from the spec: [utils.hexify] is missing; it turns bytes
    into their hexadecimal text (two lowercase digits per byte, as in
    the literals ['76'], ['ffffffff'] of tx.py). *)
Fixpoint hexify (b : bytes) : string :=
  match b with
  | [] => EmptyString
  | x :: r =>
      String (hexdigit (Z_of_byte x / 16))
        (String (hexdigit (Z_of_byte x mod 16)) (hexify r))
  end.

Definition unhexdigit (c : ascii) : option Z :=
  let n := Z.of_N (N_of_ascii c) in
  if (48 <=? n) && (n <=? 57) then Some (n - 48)
  else if (97 <=? n) && (n <=? 102) then Some (n - 87)
  else if (65 <=? n) && (n <=? 70) then Some (n - 55)
  else None.

(** Modelled from the spec: [utils.unhexify] is missing; the inverse of
    [hexify], raising on an odd number of digits or a non-hex digit. *)
Fixpoint unhexify (s : string) : result bytes :=
  match s with
  | EmptyString => Ok []
  | String _ EmptyString => Raise BinasciiError
  | String hi (String lo r) =>
      match unhexdigit hi, unhexdigit lo with
      | Some h, Some l =>
          let* t := unhexify r in Ok (byte_of_Z (16 * h + l) :: t)
      | _, _ => Raise BinasciiError
      end
  end.

(** The argument of [toLittleEndian] is an [int] at two call sites and
    a hexadecimal [str] at two others. *)
Inductive le_arg : Type :=
| IntArg (n : Z)
| StrArg (s : string).

(** Modelled from the spec: [utils.toLittleEndian] is missing. On an
    integer it gives the hexadecimal text of its 4-byte little-endian
    encoding (version, output index); on hexadecimal text it gives the
    text of the same bytes in reverse order (the transaction id, which
    is displayed byte-reversed). *)
Definition toLittleEndian (a : le_arg) : result string :=
  match a with
  | IntArg n => let* b := struct_pack_ltL n in Ok (hexify b)
  | StrArg s => let* b := unhexify s in Ok (hexify (rev b))
  end.

(** Modelled from the spec: the variable-length integer behind
    [utils.getLen] and [utils.varstr], which are missing: one byte below
    253, otherwise an escape byte and 2, 4 or 8 little-endian bytes. *)
Definition varint (n : Z) : bytes :=
  if n <? 253 then le_bytes 1 n
  else if n <=? 65535 then xfd :: le_bytes 2 n
  else if n <=? 4294967295 then xfe :: le_bytes 4 n
  else xff :: le_bytes 8 n.

(** Modelled from the spec: [utils.getLen] is missing; it gives the
    length prefix of a script held as hexadecimal text: the
    variable-length integer of its length in bytes, as text. *)
Definition getLen (s : string) : string :=
  hexify (varint (Z.of_nat (String.length s) / 2)).

(** Modelled from the spec: [utils.varstr] is missing; it prefixes
    bytes with the variable-length integer of their length. *)
Definition varstr (b : bytes) : bytes :=
  (varint (Z.of_nat (List.length b)) ++ b)%list.

(** Modelled from the spec: [utils.sha256] is missing; the SHA-256 digest
    of bytes (applied twice it is the spec's double-hash). *)
Definition sha256 (b : bytes) : bytes := SHA256.digest b.

End Utils.
Export Utils.

(** ** wallet.py: the key material, read-only for the transaction *)

(** Modelled from the spec: class [Wallet] of [wallet.py] is missing; its
    three fields that tx.py reads are the spec's KeyMaterial: private
    scalar, public key bytes, 20-byte public-key hash. *)

Record Wallet : Type := {
  priv_key : bytes;
  pub_key : bytes;
  pub_key_hash : bytes
}.

(** ** class Transaction *)

Record Transaction : Type := {
  org : Wallet;
  dest : Wallet;
  outputs : option (list (Z * string));   (* set by createOutputs *)
  txPayload : option string               (* set by makeSignedTx *)
}.

(** [Transaction(org, dest)]: [__init__] assigns neither [outputs] nor
    [txPayload]. *)
Definition Transaction_init (o d : Wallet) : Transaction :=
  {| org := o; dest := d; outputs := None; txPayload := None |}.

Definition VERSION : Z := 1.
Definition OP_DUP : string := "76".
Definition OP_HASH160 : string := "a9".
Definition OP_EQUALVERIFY : string := "88".
Definition OP_CHECKSIG : string := "ac".
Definition HASH_CODE_TYPE : bytes := [x01].
Definition MAGIC_BYTES : Z := 0x0b110907.

Definition makeScriptPubKey (addr : string) : string :=
  OP_DUP +s OP_HASH160 +s getLen addr +s addr +s OP_EQUALVERIFY +s OP_CHECKSIG.

Definition makeOutput (data : Z * string) : result string :=
  let '(value, addr) := data in
  let scriptPubKey := makeScriptPubKey addr in
  let scriptPubKeySize := getLen scriptPubKey in
  let* packed := struct_pack_ltQ value in
  Ok (hexify packed +s scriptPubKeySize +s scriptPubKey).

Definition makeRawTx (self : Transaction) (txid : string) (vout : Z)
    (scriptSig : string) : result string :=
  let* version := toLittleEndian (IntArg VERSION) in
  let lockTime := "00000000"%string in
  let input_count := "01"%string in
  let* txid := toLittleEndian (StrArg txid) in
  let* vout := toLittleEndian (IntArg vout) in
  let inputs :=
    input_count +s txid +s vout +s getLen scriptSig +s scriptSig +s "ffffffff" in
  let output_count := "02"%string in
  let* outs :=
    match outputs self with
    | Some l => join_map makeOutput l
    | None => Raise AttributeError
    end in
  let outs := output_count +s outs in
  Ok (version +s inputs +s outs +s lockTime).

Definition createOutputs (self : Transaction) (balance value fee : Z) : Transaction :=
  {| org := org self;
     dest := dest self;
     outputs := Some [ (value, hexify (pub_key_hash (dest self)));
                       (balance - value - fee, hexify (pub_key_hash (org self))) ];
     txPayload := txPayload self |}.

(** ** struct.pack in native mode

    [struct.pack('L12sL4s', ...)] has no byte-order prefix, so it uses the
    native size and alignment of a C [unsigned long]: 8 bytes on 64-bit
    Linux and macOS, 4 bytes on Windows. The byte order is little-endian. *)
Record platform : Type := { sizeof_long : nat }.

Definition pad_to (align : nat) (b : bytes) : bytes :=
  (b ++ repeat x00 ((align - List.length b mod align) mod align))%list.

(** The ['12s'] and ['4s'] fields: truncated or padded with null bytes. *)
Definition pack_s (n : nat) (b : bytes) : bytes :=
  firstn n (b ++ repeat x00 n)%list.

Definition struct_pack_L12sL4s (pl : platform) (a : Z) (b : bytes) (c : Z)
    (d : bytes) : result bytes :=
  let* fa := struct_pack_le (sizeof_long pl) a in
  let fb := pack_s 12 b in
  let* fc := struct_pack_le (sizeof_long pl) c in
  let fd := pack_s 4 d in
  Ok (pad_to (sizeof_long pl) (fa ++ fb) ++ fc ++ fd)%list.

Definition makeMessage (pl : platform) (command : string) (payload : bytes)
    : result bytes :=
  let payloadHash := hexify (firstn 4 (sha256 (sha256 payload))) in
  let* le := toLittleEndian (StrArg payloadHash) in
  let* header :=
    struct_pack_L12sL4s pl MAGIC_BYTES (encode_utf8 command)
      (Z.of_nat (List.length payload)) (encode_utf8 le) in
  Ok (header ++ payload)%list.

(** The checksum field of an envelope: the four bytes that precede the
    payload. *)
Definition envelope_checksum (msg payload : bytes) : bytes :=
  firstn 4 (skipn (List.length msg - List.length payload - 4) msg).

(** ** Python floats, as far as [N / 2] and [s < Nby2] need them

    A finite binary64 value is [fman * 2 ^ fexp]. *)
Record pyfloat : Type := { fman : Z; fexp : Z }.

(** [n / d] rounded to the nearest integer, ties to even. *)
Definition rne_div (n d : Z) : Z :=
  let q := n / d in
  let r := n mod d in
  if 2 * r <? d then q
  else if d <? 2 * r then q + 1
  else if Z.even q then q else q + 1.

(** [a / b] on two [int]s: the quotient correctly rounded to binary64
    (53 significant bits, ties to even, smallest exponent -1074). *)
Definition int_truediv (a b : Z) : result pyfloat :=
  if b =? 0 then Raise ZeroDivisionError
  else if a =? 0 then Ok {| fman := 0; fexp := 0 |}
  else
    let a' := Z.abs a in
    let b' := Z.abs b in
    let num e := a' * 2 ^ Z.max 0 (- e) in
    let den e := b' * 2 ^ Z.max 0 e in
    let d := Z.log2 a' - Z.log2 b' in
    let l := if den d <=? num d then d else d - 1 in
    let e := Z.max (l - 52) (-1074) in
    let m := rne_div (num e) (den e) in
    if (971 <? e) || ((e =? 971) && (m =? 2 ^ 53)) then Raise OverflowError
    else Ok {| fman := Z.sgn a * Z.sgn b * m; fexp := e |}.

(** [s < f] for an [int] and a [float]: Python compares the exact values. *)
Definition int_lt_float (s : Z) (f : pyfloat) : bool :=
  if 0 <=? fexp f then s <? fman f * 2 ^ fexp f
  else s * 2 ^ (- fexp f) <? fman f.

(** ** ['%064x' % n] *)

Fixpoint hex_digits (w : nat) (n : Z) : string :=
  match w with
  | O => EmptyString
  | S k => hex_digits k (n / 16) +s String (hexdigit (n mod 16)) EmptyString
  end.

Definition hex_width (n : Z) : nat :=
  if n =? 0 then 1%nat else Z.to_nat (Z.log2 n / 4 + 1).

Definition fmt_064x (n : Z) : string :=
  if n <? 0 then "-" +s hex_digits (Nat.max 63 (hex_width (- n))) (- n)
  else hex_digits (Nat.max 64 (hex_width n)) n.

(** ** python-ecdsa, as far as [signTx] uses it

    The library is an interface here: [signTx] is modelled over any
    implementation of it. [sign_digest_der sk k digest] is
    [sk.sign_digest(digest, sigencode=util.sigencode_der)] when the nonce
    that the library draws for the call is [k]. [verify_digest] returns a
    boolean or raises. *)
Record EcdsaLib : Type := {
  SigningKey : Type;
  VerifyingKey : Type;
  SigningKey_from_string : bytes -> result SigningKey;
  sign_digest_der : SigningKey -> Z -> bytes -> result bytes;
  sigdecode_der : bytes -> Z -> result (Z * Z);
  VerifyingKey_from_string : bytes -> result VerifyingKey;
  verify_digest : VerifyingKey -> bytes -> bytes -> result bool
}.

(** [ecdsa.SECP256k1.order] *)
Definition SECP256k1_order : Z :=
  0xFFFFFFFFFFFFFFFFFFFFFFFFFFFFFFFEBAAEDCE6AF48A03BBFD25E8CD0364141.

(** The outcome of code that contains the [while 1] loop, run with a
    bound on the number of iterations: it finished (returned or raised)
    or the bound was reached with the loop still running. *)
Inductive outcome (A : Type) : Type :=
| Done (r : result A)
| Running.

Arguments Done {A} r.
Arguments Running {A}.

Definition obind {A B : Type} (c : outcome A) (k : A -> outcome B) : outcome B :=
  match c with
  | Done (Ok a) => k a
  | Done (Raise e) => Done (Raise e)
  | Running => Running
  end.

Section Signer.

Variable E : EcdsaLib.

(** The body of the [if s < Nby2:] branch, up to [break]. *)
Definition self_verify (self : Transaction) (tx : bytes) (r s : Z) : result unit :=
  let* vk := VerifyingKey_from_string E (pub_key (org self)) in
  let* decodedSig := unhexify (fmt_064x r +s fmt_064x s) in
  let* ok := verify_digest E vk decodedSig tx in
  if ok then Ok tt else Raise AssertionError.

(** The [while 1] loop of [signTx]; [rnd i] is the nonce of the [i]-th
    call of [sign_digest], [fuel] bounds the iterations. The value is
    [txSig] at the [break]. *)
Fixpoint signTx_loop (fuel : nat) (self : Transaction) (sk : SigningKey E)
    (Nby2 : pyfloat) (tx : bytes) (rnd : nat -> Z) (i : nat) : outcome bytes :=
  match fuel with
  | O => Running
  | S fuel' =>
      match sign_digest_der E sk (rnd i) tx with
      | Raise e => Done (Raise e)
      | Ok txSig =>
          match sigdecode_der E txSig SECP256k1_order with
          | Raise e => Done (Raise e)
          | Ok (r, s) =>
              if int_lt_float s Nby2 then
                match self_verify self tx r s with
                | Raise e => Done (Raise e)
                | Ok _ => Done (Ok txSig)
                end
              else signTx_loop fuel' self sk Nby2 tx rnd (S i)
          end
      end
  end.

Definition signTx (fuel : nat) (self : Transaction) (rnd : nat -> Z) (tx : bytes)
    : outcome bytes :=
  match SigningKey_from_string E (priv_key (org self)) with
  | Raise e => Done (Raise e)
  | Ok sk =>
      let N := SECP256k1_order in
      match int_truediv N 2 with
      | Raise e => Done (Raise e)
      | Ok Nby2 =>
          obind (signTx_loop fuel self sk Nby2 tx rnd 0)
            (fun txSig => Done (Ok (txSig ++ HASH_CODE_TYPE)%list))
      end
  end.

(** Whether the attempt with nonce [k] is discarded and the loop goes
    round again: it signed and decoded, and [s < Nby2] is false. *)
Definition retried (sk : SigningKey E) (Nby2 : pyfloat) (tx : bytes) (k : Z) : bool :=
  match sign_digest_der E sk k tx with
  | Raise _ => false
  | Ok txSig =>
      match sigdecode_der E txSig SECP256k1_order with
      | Raise _ => false
      | Ok (_, s) => negb (int_lt_float s Nby2)
      end
  end.

(** Lines 141-142 of [makeSignedTx]: the text that is hashed and signed. *)
Definition sigHashPreimage (self : Transaction) (txid : string) (vout : Z)
    : result string :=
  let scriptPubKey := makeScriptPubKey (hexify (pub_key_hash (org self))) in
  let* raw := makeRawTx self txid vout scriptPubKey in
  let* tag := struct_pack_ltL (int_from_bytes_big HASH_CODE_TYPE) in
  Ok (raw +s hexify tag).

(** Line 145 of [makeSignedTx]. *)
Definition txDigest (self : Transaction) (txid : string) (vout : Z) : result bytes :=
  let* rawTx := sigHashPreimage self txid vout in
  Ok (sha256 (sha256 (encode_utf8 rawTx))).

(** Lines 149 to 151 of [makeSignedTx]: the payload is returned and
    stored in [self.txPayload]. *)
Definition assemble_signed (self : Transaction) (txid : string) (vout : Z)
    (signedTx : bytes) : result (Transaction * string) :=
  let scriptSig :=
    hexify (varstr signedTx) +s hexify (varstr (pub_key (org self))) in
  let* payload := makeRawTx self txid vout scriptSig in
  Ok ({| org := org self; dest := dest self; outputs := outputs self;
         txPayload := Some payload |}, payload).

Definition makeSignedTx (fuel : nat) (self : Transaction) (rnd : nat -> Z)
    (txid : string) (vout : Z) : outcome (Transaction * string) :=
  match txDigest self txid vout with
  | Raise e => Done (Raise e)
  | Ok digest =>
      obind (signTx fuel self rnd digest)
        (fun signedTx => Done (assemble_signed self txid vout signedTx))
  end.

End Signer.

(** ** A reference implementation of the library interface

    ECDSA over secp256k1 as python-ecdsa computes it, with the nonce of
    each signature given explicitly. It is used to run [signTx] on
    concrete keys and digests; the general theorems do not depend on it. *)
Module Secp256k1.

Definition p : Z := 0xFFFFFFFFFFFFFFFFFFFFFFFFFFFFFFFFFFFFFFFFFFFFFFFFFFFFFFFEFFFFFC2F.
Definition n : Z := SECP256k1_order.
Definition Gx : Z := 0x79BE667EF9DCBBAC55A06295CE870B07029BFCDB2DCE28D959F2815B16F81798.
Definition Gy : Z := 0x483ADA7726A3C4655DA4FBFC0E1108A8FD17B448A68554199C47D08FFB10D4B8.

(** The curve arithmetic runs on [bigZ], machine-word integers with the
    meaning of [Z] ([BigZ.spec_mul], [BigZ.spec_modulo]). *)
Definition big (z : Z) : bigZ := BigZ.of_Z z.
Definition bp : bigZ := Eval vm_compute in big p.

Definition mulm (m x y : bigZ) : bigZ := BigZ.modulo (BigZ.mul x y) m.
Definition subm (m x y : bigZ) : bigZ := BigZ.modulo (BigZ.sub x y) m.

Fixpoint pow_mod_pos (b : bigZ) (e : positive) (m : bigZ) : bigZ :=
  match e with
  | xH => BigZ.modulo b m
  | xO e' => let t := pow_mod_pos b e' m in mulm m t t
  | xI e' => let t := pow_mod_pos b e' m in mulm m (mulm m t t) b
  end.

(** The inverse modulo a prime [m], by Fermat's little theorem. *)
Definition inverse_mod (a m : Z) : Z :=
  match m - 2 with
  | Zpos e => BigZ.to_Z (pow_mod_pos (big a) e (big m))
  | _ => 0
  end.

(** Points in Jacobian coordinates; the third coordinate is 0 at infinity. *)
Definition jpoint : Type := (bigZ * bigZ * bigZ)%type.

Definition jinfinity : jpoint := (BigZ.one, BigZ.one, BigZ.zero).

Definition jdouble (P : jpoint) : jpoint :=
  let '(X, Y, Zc) := P in
  if BigZ.eqb Zc BigZ.zero || BigZ.eqb Y BigZ.zero then jinfinity
  else
    let Y2 := mulm bp Y Y in
    let S := mulm bp (big 4) (mulm bp X Y2) in
    let M := mulm bp (big 3) (mulm bp X X) in
    let X' := subm bp (mulm bp M M) (BigZ.mul (big 2) S) in
    let Y' := subm bp (mulm bp M (BigZ.sub S X')) (mulm bp (big 8) (mulm bp Y2 Y2)) in
    let Z' := mulm bp (big 2) (mulm bp Y Zc) in
    (X', Y', Z').

Definition jadd (P Q : jpoint) : jpoint :=
  let '(X1, Y1, Z1) := P in
  let '(X2, Y2, Z2) := Q in
  if BigZ.eqb Z1 BigZ.zero then Q
  else if BigZ.eqb Z2 BigZ.zero then P
  else
    let Z1Z1 := mulm bp Z1 Z1 in
    let Z2Z2 := mulm bp Z2 Z2 in
    let U1 := mulm bp X1 Z2Z2 in
    let U2 := mulm bp X2 Z1Z1 in
    let S1 := mulm bp Y1 (mulm bp Z2 Z2Z2) in
    let S2 := mulm bp Y2 (mulm bp Z1 Z1Z1) in
    if BigZ.eqb U1 U2 then
      if BigZ.eqb S1 S2 then jdouble P else jinfinity
    else
      let H := subm bp U2 U1 in
      let R := subm bp S2 S1 in
      let H2 := mulm bp H H in
      let H3 := mulm bp H H2 in
      let V := mulm bp U1 H2 in
      let X3 := subm bp (BigZ.sub (mulm bp R R) H3) (BigZ.mul (big 2) V) in
      let Y3 := subm bp (mulm bp R (BigZ.sub V X3)) (mulm bp S1 H3) in
      let Z3 := mulm bp H (mulm bp Z1 Z2) in
      (X3, Y3, Z3).

Fixpoint jmul_pos (k : positive) (P : jpoint) : jpoint :=
  match k with
  | xH => P
  | xO k' => jdouble (jmul_pos k' P)
  | xI k' => jadd (jdouble (jmul_pos k' P)) P
  end.

Definition jmul (k : Z) (P : jpoint) : jpoint :=
  match k with
  | Zpos k' => jmul_pos k' P
  | _ => jinfinity
  end.

(** The affine point, [None] at infinity. *)
Definition to_affine (P : jpoint) : option (Z * Z) :=
  let '(X, Y, Zc) := P in
  if BigZ.eqb Zc BigZ.zero then None
  else
    let zi := big (inverse_mod (BigZ.to_Z Zc) p) in
    let zi2 := mulm bp zi zi in
    Some (BigZ.to_Z (mulm bp X zi2), BigZ.to_Z (mulm bp Y (mulm bp zi2 zi))).

Definition of_affine (q : Z * Z) : jpoint := (big (fst q), big (snd q), BigZ.one).

Definition G : jpoint := of_affine (Gx, Gy).

Definition on_curve (q : Z * Z) : bool :=
  let '(x, y) := q in
  (0 <=? x) && (x <? p) && (0 <=? y) && (y <? p)
  && ((y * y - (x * x * x + 7)) mod p =? 0).

(** [Private_key.sign(hash, k)] *)
Definition sign_number (d z k : Z) : result (Z * Z) :=
  let k := k mod n in
  match to_affine (jmul k G) with
  | None => Raise (LibraryError "RSZeroError")
  | Some (x, _) =>
      let r := x mod n in
      if r =? 0 then Raise (LibraryError "RSZeroError")
      else
        let s := inverse_mod k n * ((z + d * r mod n) mod n) mod n in
        if s =? 0 then Raise (LibraryError "RSZeroError") else Ok (r, s)
  end.

(** [Public_key.verifies(hash, signature)] *)
Definition verifies (Q : Z * Z) (z r s : Z) : bool :=
  if (r <? 1) || (n - 1 <? r) || (s <? 1) || (n - 1 <? s) then false
  else
    let c := inverse_mod s n in
    let u1 := z * c mod n in
    let u2 := r * c mod n in
    match to_affine (jadd (jmul u1 G) (jmul u2 (of_affine Q))) with
    | None => false
    | Some (x, _) => x mod n =? r
    end.

(** [der.encode_length], [der.encode_integer], [der.encode_sequence] *)
Definition encode_length (l : Z) : bytes :=
  if l <? 128 then [byte_of_Z l]
  else
    let w := Z.to_nat (Z.log2 l / 8 + 1) in
    (byte_of_Z (128 + Z.of_nat w) :: SHA256.be_bytes w l).

Definition minimal_be (v : Z) : bytes :=
  SHA256.be_bytes (if v =? 0 then 1%nat else Z.to_nat (Z.log2 v / 8 + 1)) v.

Definition encode_integer (v : Z) : bytes :=
  let s := minimal_be v in
  match s with
  | b :: _ =>
      if Z_of_byte b <=? 127
      then (x02 :: encode_length (Z.of_nat (List.length s)) ++ s)%list
      else (x02 :: encode_length (Z.of_nat (List.length s) + 1) ++ x00 :: s)%list
  | [] => []
  end.

Definition sigencode_der (r s : Z) : bytes :=
  let body := (encode_integer r ++ encode_integer s)%list in
  (x30 :: encode_length (Z.of_nat (List.length body)) ++ body)%list.

(** Short-form lengths are all that signatures over this curve need. *)
Definition remove_integer (b : bytes) : result (Z * bytes) :=
  match b with
  | x02 :: l :: rest =>
      let len := Z.to_nat (Z_of_byte l) in
      if (127 <? Z_of_byte l) || (len =? 0)%nat || (List.length rest <? len)%nat
      then Raise (LibraryError "UnexpectedDER")
      else
        match rest with
        | b0 :: _ =>
            if 127 <? Z_of_byte b0 then Raise (LibraryError "UnexpectedDER")
            else Ok (int_from_bytes_big (firstn len rest), skipn len rest)
        | [] => Raise (LibraryError "UnexpectedDER")
        end
  | _ => Raise (LibraryError "UnexpectedDER")
  end.

Definition sigdecode_der (sig : bytes) (order : Z) : result (Z * Z) :=
  match sig with
  | x30 :: l :: body =>
      if (127 <? Z_of_byte l) || negb (Z.of_nat (List.length body) =? Z_of_byte l)
      then Raise (LibraryError "UnexpectedDER")
      else
        let* (r, rest) := remove_integer body in
        let* (s, rest') := remove_integer rest in
        match rest' with
        | [] => Ok (r, s)
        | _ => Raise (LibraryError "UnexpectedDER")
        end
  | _ => Raise (LibraryError "UnexpectedDER")
  end.

(** [SigningKey.from_string(string, curve=SECP256k1)] *)
Definition SigningKey_from_string (b : bytes) : result Z :=
  let d := int_from_bytes_big b in
  if (List.length b =? 32)%nat && (1 <=? d) && (d <? n) then Ok d
  else Raise (LibraryError "MalformedPointError").

(** The number of a digest: a digest longer than the order raises
    [BadDigestError], and the empty digest has no number ([ValueError]). *)
Definition digest_number (digest : bytes) : result Z :=
  if (32 <? List.length digest)%nat then Raise (LibraryError "BadDigestError")
  else
    match digest with
    | [] => Raise (LibraryError "ValueError")
    | _ => Ok (int_from_bytes_big digest)
    end.

(** [sk.sign_digest(digest, sigencode=util.sigencode_der)] with nonce [k] *)
Definition sign_digest_der (d : Z) (k : Z) (digest : bytes) : result bytes :=
  let* number := digest_number digest in
  let* (r, s) := sign_number d number k in
  Ok (sigencode_der r s).

(** [numbertheory.square_root_mod_prime] for this field, where the prime
    is 3 modulo 4. *)
Definition square_root_mod_p (a : Z) : option Z :=
  let r :=
    match (p + 1) / 4 with
    | Zpos e => BigZ.to_Z (pow_mod_pos (big a) e bp)
    | _ => 0
    end in
  if r * r mod p =? a mod p then Some r else None.

Definition point_of_raw (r : bytes) : Z * Z :=
  (int_from_bytes_big (firstn 32 r), int_from_bytes_big (skipn 32 r)).

(** [VerifyingKey.from_string(string, curve=SECP256k1)]: the encoding is
    told by the length: raw (64 bytes), uncompressed or hybrid (65 bytes,
    first byte 04, 06 or 07), compressed (33 bytes, first byte 02 or
    03); the point must lie on the curve. *)
Definition VerifyingKey_from_string (b : bytes) : result (Z * Z) :=
  let malformed := Raise (LibraryError "MalformedPointError") in
  let checked (q : Z * Z) := if on_curve q then Ok q else malformed in
  if (List.length b =? 64)%nat then checked (point_of_raw b)
  else if (List.length b =? 65)%nat then
    match b with
    | x04 :: r => checked (point_of_raw r)
    | x06 :: r =>
        if Z.even (snd (point_of_raw r)) then checked (point_of_raw r) else malformed
    | x07 :: r =>
        if Z.odd (snd (point_of_raw r)) then checked (point_of_raw r) else malformed
    | _ => malformed
    end
  else if (List.length b =? 33)%nat then
    match b with
    | prefix :: r =>
        if Byte.eqb prefix x02 || Byte.eqb prefix x03 then
          let x := int_from_bytes_big r in
          match square_root_mod_p ((x * x * x + 7) mod p) with
          | None => malformed
          | Some beta =>
              let y :=
                if Bool.eqb (Byte.eqb prefix x02) (Z.odd beta) then p - beta else beta in
              checked (x, y)
          end
        else malformed
    | [] => malformed
    end
  else malformed.

(** [vk.verify_digest(signature, digest)] with the default
    [sigdecode_string]: it returns [True] or raises. *)
Definition verify_digest (Q : Z * Z) (sig digest : bytes) : result bool :=
  let* number := digest_number digest in
  if negb (List.length sig =? 64)%nat
  then Raise (LibraryError "BadSignatureError")
  else if verifies Q number
            (int_from_bytes_big (firstn 32 sig)) (int_from_bytes_big (skipn 32 sig))
  then Ok true
  else Raise (LibraryError "BadSignatureError").

Definition lib : EcdsaLib :=
  Build_EcdsaLib Z (Z * Z)%type SigningKey_from_string sign_digest_der
    sigdecode_der VerifyingKey_from_string verify_digest.

(** The wallet of a private scalar: its 32 bytes, the raw encoding of its
    public point, and a 20-byte hash (any 20 bytes serve here). *)
Definition wallet_of (d : Z) (hash : bytes) : Wallet :=
  match to_affine (jmul d G) with
  | Some (x, y) =>
      {| priv_key := SHA256.be_bytes 32 d;
         pub_key := (SHA256.be_bytes 32 x ++ SHA256.be_bytes 32 y)%list;
         pub_key_hash := hash |}
  | None => {| priv_key := SHA256.be_bytes 32 d; pub_key := []; pub_key_hash := hash |}
  end.

End Secp256k1.

(** ** The wire format in the specification's words

    These definitions follow the text of the specification (sections 4.1
    to 4.3), on bytes; the theorems below compare them with what the code
    builds as hexadecimal text. *)

(** Section 4.1: DUP, HASH160, push of the hash, EQUALVERIFY, CHECKSIG. *)
Definition wire_script (hash : bytes) : bytes :=
  ([x76; xa9] ++ varint (Z.of_nat (List.length hash)) ++ hash ++ [x88; xac])%list.

(** Section 4.2: 8-byte little-endian value, then the length-prefixed
    locking script. *)
Definition wire_output (value : Z) (hash : bytes) : bytes :=
  (le_bytes 8 value
     ++ varint (Z.of_nat (List.length (wire_script hash))) ++ wire_script hash)%list.

(** Section 4.3: version, input count, reversed id, index, length-prefixed
    unlocking script, sequence, output count, payment output, change
    output, locktime. *)
Definition wire_tx (id : bytes) (vout : Z) (script : bytes)
    (payment : Z) (recipient : bytes) (change : Z) (spender : bytes) : bytes :=
  (le_bytes 4 1 ++ [x01] ++ rev id ++ le_bytes 4 vout
     ++ varint (Z.of_nat (List.length script)) ++ script
     ++ [xff; xff; xff; xff]
     ++ [x02] ++ wire_output payment recipient ++ wire_output change spender
     ++ le_bytes 4 0)%list.

(** ** Concrete inputs used by the examples

    The previous-output reference is the one of the program's [__main__]
    block; the hashes are placeholders of the right length. *)
Definition main_txid : string :=
  "dc2a7fa88c93327fe70893df86d1ed9df4904c8a586d661895756a7b528fbe01".
Definition spender_hash : bytes := repeat x11 20.
Definition recipient_hash : bytes := repeat x22 20.
Definition spender : Wallet := Secp256k1.wallet_of 3301 spender_hash.
Definition recipient : Wallet := Secp256k1.wallet_of 1337 recipient_hash.
Definition tx0 : Transaction := Transaction_init spender recipient.

(** Digests for the signer. With the spender's key 3301 and the nonce
    1337, the first one is signed with [s = order / 2 + 1] and the second
    one with [s = order - 1]; the third is the double hash of the empty
    message. *)
Definition digest_half_plus_one : bytes :=
  SHA256.be_bytes 32 0xfa253f83b38d2f0905543e2448abf3e05841d6a48f299f90ca0fd032e9fa5dc8.
Definition digest_top : bytes :=
  SHA256.be_bytes 32 0x7a253f83b38d2f0905543e2448abf3e0faea683137854f72ea26a0ec81df3552.
Definition digest_empty : bytes := sha256 (sha256 []).

(** The value of [Nby2] in [signTx], 2 ^ 255 (lemma [Nby2_is_2_255]). *)
Definition two_255 : pyfloat := {| fman := 2 ^ 53; fexp := 202 |}.

(** A wallet whose public key is not the one of its private key. *)
Definition mismatched : Wallet :=
  {| priv_key := priv_key spender;
     pub_key := pub_key recipient;
     pub_key_hash := spender_hash |}.

(** Nonce streams: always 1337, and 1337, 1338, 1339, ... *)
Definition constant_nonce : nat -> Z := fun _ => 1337.
Definition counting_nonce : nat -> Z := fun i => 1337 + Z.of_nat i.

(** ** The broadcaster: [getVersionMsg] and [send] *)

Definition PROTOCOL_VERSION : Z := 70001.

(** [struct.pack('<LQQ26s26sQsL', ...)]: little-endian, standard sizes,
    no padding; ['s'] alone is one byte. *)
Definition struct_pack_version (version services timestamp : Z)
    (addr_recv addr_from : bytes) (nonce : Z) (user_agent : bytes)
    (start_height : Z) : result bytes :=
  let* f1 := struct_pack_le 4 version in
  let* f2 := struct_pack_le 8 services in
  let* f3 := struct_pack_le 8 timestamp in
  let* f6 := struct_pack_le 8 nonce in
  let* f8 := struct_pack_le 4 start_height in
  Ok (f1 ++ f2 ++ f3 ++ pack_s 26 addr_recv ++ pack_s 26 addr_from
        ++ f6 ++ pack_s 1 user_agent ++ f8)%list.

(** [getVersionMsg]. [now] is [int(time.time())], [nonce] is
    [random.getrandbits(64)], and [local] is what
    [netaddr(socket.inet_aton('127.0.0.1'), 8333)] returns ([utils.netaddr]
    is taken as given: both calls have the same arguments). *)
Definition getVersionMsg (pl : platform) (now nonce : Z) (local : bytes)
    : result bytes :=
  let services := 1 in
  let timestamp := now in
  let addr_recv := local in
  let addr_from := local in
  let user_agent := [x00] in
  let start_height := 0 in
  let* payload :=
    struct_pack_version PROTOCOL_VERSION services timestamp addr_recv addr_from
      nonce user_agent start_height in
  makeMessage pl "version" payload.

(** What one socket call does: it succeeds, it raises
    [ConnectionRefusedError] or [ConnectionResetError] (the two that
    [send] catches), or it raises something else. *)
Inductive sock_outcome : Type :=
| SockOk
| SockCaught
| SockRaises (e : exn).

(** The surroundings of [send]: [net a k] is the outcome of the [k]-th
    socket call of the [a]-th pass through the loop (0 [socket()],
    1 [connect], 2 [send], 3 and 4 [recv], 5 [send], 6 [recv]); [clock a]
    and [getrandbits a] are the time and the random nonce read in pass
    [a]. *)
Record world : Type := {
  net : nat -> nat -> sock_outcome;
  clock : nat -> Z;
  getrandbits : nat -> Z;
  netaddr_local : bytes
}.

(** The calls of [send] that reach the network, in order, whether or not
    they succeed: [connect], for the peer it printed, to an address and a
    port, and [sock.send] of bytes. *)
Inductive event : Type :=
| Connect (printed : string) (address : string) (port : Z)
| Sent (msg : bytes).

(** How one pass through the body of the [for] loop ends. *)
Inductive pass_end : Type :=
| Returned
| Continued
| Raised (e : exn).

(** A socket call inside the [try]: [k] is what follows it. *)
Definition sock_call (o : sock_outcome) (done : list event)
    (k : list event * pass_end) : list event * pass_end :=
  match o with
  | SockOk => (done ++ fst k, snd k)%list
  | SockCaught => (done, Continued)
  | SockRaises e => (done, Raised e)
  end.

(** A computation inside the [try] that may raise; nothing it raises is
    caught. *)
Definition pure_call {A : Type} (c : result A) (k : A -> list event * pass_end)
    : list event * pass_end :=
  match c with
  | Ok a => k a
  | Raise e => ([], Raised e)
  end.

(** The body of the [try], for the pass [a] and the peer [peer]. *)
Definition send_pass (pl : platform) (w : world) (self : Transaction) (a : nat)
    (peer : string) : list event * pass_end :=
  sock_call (net w a 0) []
    (let peer' := "222.237.76.118"%string in
     sock_call (net w a 1) [Connect peer peer' 8333]
       (pure_call (getVersionMsg pl (clock w a) (getrandbits w a) (netaddr_local w))
          (fun version =>
             sock_call (net w a 2) [Sent version]
               (sock_call (net w a 3) []
                  (sock_call (net w a 4) []
                     (pure_call
                        (let* payload :=
                           match txPayload self with
                           | Some t => Ok t
                           | None => Raise AttributeError
                           end in
                         let* raw := unhexify payload in
                         makeMessage pl "tx" raw)
                        (fun msg =>
                           sock_call (net w a 5) [Sent msg]
                             (sock_call (net w a 6) [] ([], Returned))))))))).

(** The [for] loop over the shuffled peers, from pass [a] on. *)
Fixpoint send_loop (pl : platform) (w : world) (self : Transaction)
    (peers : list string) (a : nat) : list event * result unit :=
  match peers with
  | [] => ([], Ok tt)
  | peer :: rest =>
      match send_pass pl w self a peer with
      | (evs, Returned) => (evs, Ok tt)
      | (evs, Raised e) => (evs, Raise e)
      | (evs, Continued) =>
          let '(evs', r) := send_loop pl w self rest (S a) in
          ((evs ++ evs')%list, r)
      end
  end.

(** [send]. [resolved] is the list that
    [socket.gethostbyname_ex(site)[2]] gives, after [random.shuffle], or
    the exception of the lookup. *)
Definition send (pl : platform) (w : world) (self : Transaction)
    (resolved : result (list string)) : list event * result unit :=
  match resolved with
  | Raise e => ([], Raise e)
  | Ok peers => send_loop pl w self peers 0
  end.

(** A world where every socket call succeeds, and one where every
    connection is refused. *)
Definition friendly : world :=
  {| net := fun _ _ => SockOk; clock := fun _ => 1700000000;
     getrandbits := fun _ => 42; netaddr_local := repeat x00 26 |}.
Definition refusing : world :=
  {| net := fun _ k => if (k =? 1)%nat then SockCaught else SockOk;
     clock := fun _ => 1700000000;
     getrandbits := fun _ => 42; netaddr_local := repeat x00 26 |}.

(** ** Decoders used to state round trips *)

(** [int.from_bytes(b, 'little')]. *)
Definition int_from_bytes_little (b : bytes) : Z :=
  fold_right (fun x acc => Z_of_byte x + 256 * acc) 0 b.

(** The id of [main_txid] as bytes, in display order. *)
Definition main_id : bytes :=
  match unhexify main_txid with
  | Ok b => b
  | Raise _ => []
  end.

(** The transaction of the scenario, its digest, and a wallet whose
    private key is empty. *)
Definition scenario : Transaction := createOutputs tx0 10000 1000 1000.
Definition scenario_digest : bytes :=
  SHA256.be_bytes 32 0xda4bfbd228f97066e052bafa7d4891f7c18fdf5210f2e4f84f5a59e87c40d658.
Definition keyless : Wallet :=
  {| priv_key := []; pub_key := pub_key spender; pub_key_hash := spender_hash |}.

(** * Properties *)

(** ** The hash and the curve on known values *)

Example sha256_constants :
  nth 0 SHA256.K 0 = 0x428a2f98 /\ nth 63 SHA256.K 0 = 0xc67178f2 /\
  nth 0 SHA256.H0 0 = 0x6a09e667 /\ nth 7 SHA256.H0 0 = 0x5be0cd19.
Proof. repeat split. Qed.

Example sha256_abc :
  hexify (sha256 [x61; x62; x63]) =
    "ba7816bf8f01cfea414140de5dae2223b00361a396177a9cb410ff61f20015ad"%string.
Proof. vm_compute. reflexivity. Qed.

Example sha256_twice_empty :
  hexify (sha256 (sha256 [])) =
    "5df6e0e2761359d30a8275058e299fcc0381534545f55cf43e41983f5d4c9456"%string.
Proof. vm_compute. reflexivity. Qed.

(** The order of the generator: [n] times [G] is the point at infinity,
    and [n - 1] times [G] is the opposite of [G]. *)
Example secp256k1_order_of_G :
  Secp256k1.to_affine (Secp256k1.jmul Secp256k1.n Secp256k1.G) = None /\
  Secp256k1.to_affine (Secp256k1.jmul (Secp256k1.n - 1) Secp256k1.G) =
    Some (Secp256k1.Gx, Secp256k1.p - Secp256k1.Gy) /\
  Secp256k1.on_curve (Secp256k1.Gx, Secp256k1.Gy) = true.
Proof. repeat split; vm_compute; reflexivity. Qed.

(** ** Text and bytes *)

Lemma append_assoc (a b c : string) : (a +s b) +s c = a +s (b +s c).
Proof. induction a as [|x a IH]; simpl; [reflexivity | now rewrite IH]. Qed.

Lemma append_nil_r (a : string) : a +s EmptyString = a.
Proof. induction a as [|x a IH]; simpl; [reflexivity | now rewrite IH]. Qed.

Lemma length_append (a b : string) :
  String.length (a +s b) = (String.length a + String.length b)%nat.
Proof. induction a as [|x a IH]; simpl; [reflexivity | now rewrite IH]. Qed.

Lemma hexify_app (a b : bytes) : hexify (a ++ b) = hexify a +s hexify b.
Proof. induction a as [|x a IH]; simpl; [reflexivity | now rewrite IH]. Qed.

Lemma length_hexify (b : bytes) : String.length (hexify b) = (2 * List.length b)%nat.
Proof. induction b as [|x b IH]; simpl; [reflexivity | rewrite IH; lia]. Qed.

Lemma unhexify_cons (x : byte) (r : bytes) :
  unhexify (hexify (x :: r)) = (let* t := unhexify (hexify r) in Ok (x :: t)).
Proof. destruct x; reflexivity. Qed.

Lemma unhexify_hexify (b : bytes) : unhexify (hexify b) = Ok b.
Proof.
  induction b as [|x b IH]; [reflexivity|].
  rewrite unhexify_cons, IH. reflexivity.
Qed.

Lemma getLen_hexify (b : bytes) :
  getLen (hexify b) = hexify (varint (Z.of_nat (List.length b))).
Proof.
  unfold getLen. rewrite length_hexify.
  replace (Z.of_nat (2 * List.length b) / 2) with (Z.of_nat (List.length b)).
  - reflexivity.
  - rewrite Nat2Z.inj_mul, Z.mul_comm. symmetry. apply Z.div_mul. discriminate.
Qed.

Lemma struct_pack_le_ok (w : nat) (v : Z) :
  0 <= v < 2 ^ (8 * Z.of_nat w) -> struct_pack_le w v = Ok (le_bytes w v).
Proof.
  intros [H0 H1]. unfold struct_pack_le.
  apply Z.leb_le in H0. apply Z.ltb_lt in H1. now rewrite H0, H1.
Qed.

Lemma struct_pack_le_neg (w : nat) (v : Z) :
  v < 0 -> struct_pack_le w v = Raise StructError.
Proof.
  intros H. unfold struct_pack_le.
  apply Z.leb_gt in H. now rewrite H.
Qed.

(** ** The script encoder *)

Lemma makeScriptPubKey_hexify (hash : bytes) :
  makeScriptPubKey (hexify hash) = hexify (wire_script hash).
Proof.
  unfold makeScriptPubKey, wire_script.
  rewrite getLen_hexify, !hexify_app. reflexivity.
Qed.

(** ** The output encoder *)

Lemma makeOutput_hexify (value : Z) (hash : bytes) :
  0 <= value < 2 ^ 64 ->
  makeOutput (value, hexify hash) = Ok (hexify (wire_output value hash)).
Proof.
  intros H. unfold makeOutput, struct_pack_ltQ.
  rewrite struct_pack_le_ok by exact H.
  rewrite makeScriptPubKey_hexify, getLen_hexify.
  unfold wire_output, bind. now rewrite !hexify_app.
Qed.

Lemma makeOutput_negative (value : Z) (addr : string) :
  value < 0 -> makeOutput (value, addr) = Raise StructError.
Proof.
  intros H. unfold makeOutput, struct_pack_ltQ.
  now rewrite struct_pack_le_neg.
Qed.

(** [makeOutput] either returns or raises [struct.error]. *)
Lemma makeOutput_cases (data : Z * string) :
  (exists t, makeOutput data = Ok t) \/ makeOutput data = Raise StructError.
Proof.
  destruct data as [value addr]. unfold makeOutput, struct_pack_ltQ, struct_pack_le.
  destruct ((0 <=? value) && (value <? 2 ^ (8 * Z.of_nat 8))); simpl; eauto.
Qed.

Lemma spender_fields :
  pub_key_hash spender = spender_hash /\ pub_key_hash recipient = recipient_hash.
Proof. split; vm_compute; reflexivity. Qed.

(** ** C8: the script encoder *)

(** C8, counterexample: a 19-byte hash is not rejected; the encoder
    returns a script whose push opcode is 0x13. *)
Lemma makeScriptPubKey_accepts_19_bytes :
  List.length (repeat x11 19) <> 20%nat /\
  makeScriptPubKey (hexify (repeat x11 19)) =
    "76a9131111111111111111111111111111111111111188ac"%string.
Proof. split; [discriminate | reflexivity]. Qed.

(** C8, amended: for every hash the script encoder returns DUP, HASH160,
    the length prefix of the hash, the hash, EQUALVERIFY, CHECKSIG; when
    the hash has exactly 20 bytes the prefix is the push opcode 0x14. It
    checks no length and has no failing case. *)
Theorem makeScriptPubKey_p2pkh (hash : bytes) :
  makeScriptPubKey (hexify hash) =
    hexify ([x76; xa9] ++ varint (Z.of_nat (List.length hash)) ++ hash ++ [x88; xac]) /\
  (List.length hash = 20%nat ->
   makeScriptPubKey (hexify hash) = hexify ([x76; xa9; x14] ++ hash ++ [x88; xac])).
Proof.
  split.
  - apply makeScriptPubKey_hexify.
  - intros H. rewrite makeScriptPubKey_hexify. unfold wire_script. now rewrite H.
Qed.

Lemma makeScriptPubKey_p2pkh_witness :
  List.length spender_hash = 20%nat /\
  makeScriptPubKey (hexify spender_hash) =
    hexify ([x76; xa9; x14] ++ spender_hash ++ [x88; xac]).
Proof.
  split; [reflexivity | apply (proj2 (makeScriptPubKey_p2pkh spender_hash)); reflexivity].
Defined.

(** ** C6: the two outputs *)

(** C6: when [payment + fee <= balance], [createOutputs] stores exactly
    two entries, the payment to the recipient hash first and the change to
    the spender hash second; the change is [balance - payment - fee] and
    it is not negative. *)
Theorem createOutputs_payment_then_change (self : Transaction) (balance payment fee : Z) :
  payment + fee <= balance ->
  exists change : Z,
    outputs (createOutputs self balance payment fee) =
      Some [ (payment, hexify (pub_key_hash (dest self)));
             (change, hexify (pub_key_hash (org self))) ] /\
    change = balance - payment - fee /\
    0 <= change.
Proof.
  intros H. exists (balance - payment - fee).
  split; [reflexivity | split; [reflexivity | lia]].
Qed.

Lemma createOutputs_payment_then_change_witness :
  1000 + 1000 <= 10000 /\
  exists change : Z,
    outputs (createOutputs tx0 10000 1000 1000) =
      Some [ (1000, hexify (pub_key_hash (dest tx0)));
             (change, hexify (pub_key_hash (org tx0))) ] /\
    change = 10000 - 1000 - 1000 /\
    0 <= change.
Proof.
  split; [lia | apply (createOutputs_payment_then_change tx0 10000 1000 1000); lia].
Defined.

(** The scenario of the specification: balance 10000, payment 1000, fee
    1000 give the outputs 1000 to the recipient and 8000 to the spender. *)
Example createOutputs_scenario :
  outputs (createOutputs tx0 10000 1000 1000) =
    Some [ (1000, hexify recipient_hash); (8000, hexify spender_hash) ].
Proof. vm_compute. reflexivity. Qed.

(** ** C5: the assembled transaction *)

Lemma toLittleEndian_version : toLittleEndian (IntArg VERSION) = Ok (hexify (le_bytes 4 1)).
Proof. reflexivity. Qed.

Lemma toLittleEndian_hexify (id : bytes) :
  toLittleEndian (StrArg (hexify id)) = Ok (hexify (rev id)).
Proof. unfold toLittleEndian. now rewrite unhexify_hexify. Qed.

Lemma toLittleEndian_index (vout : Z) :
  0 <= vout < 2 ^ 32 -> toLittleEndian (IntArg vout) = Ok (hexify (le_bytes 4 vout)).
Proof.
  intros H. unfold toLittleEndian, struct_pack_ltL.
  now rewrite struct_pack_le_ok.
Qed.

(** C5: after [createOutputs], [makeRawTx] returns the hexadecimal text
    of exactly these bytes: version 1 on 4 little-endian bytes, the input
    count 01, the id byte-reversed, the index on 4 little-endian bytes,
    the variable-length-integer length of the unlocking script and the
    script, the sequence ffffffff, the output count 02, the payment
    output then the change output (each an 8-byte little-endian value and
    a length-prefixed locking script), and the locktime 0 on 4 bytes. *)
Theorem makeRawTx_wire_format (self : Transaction) (balance payment fee : Z)
    (id script : bytes) (vout : Z) :
  0 <= vout < 2 ^ 32 ->
  0 <= payment < 2 ^ 64 ->
  0 <= balance - payment - fee < 2 ^ 64 ->
  makeRawTx (createOutputs self balance payment fee) (hexify id) vout (hexify script) =
    Ok (hexify
          (le_bytes 4 1 ++ [x01] ++ rev id ++ le_bytes 4 vout
             ++ varint (Z.of_nat (List.length script)) ++ script
             ++ [xff; xff; xff; xff]
             ++ [x02]
             ++ (le_bytes 8 payment
                   ++ varint (Z.of_nat (List.length (wire_script (pub_key_hash (dest self)))))
                   ++ wire_script (pub_key_hash (dest self)))
             ++ (le_bytes 8 (balance - payment - fee)
                   ++ varint (Z.of_nat (List.length (wire_script (pub_key_hash (org self)))))
                   ++ wire_script (pub_key_hash (org self)))
             ++ le_bytes 4 0)).
Proof.
  intros Hv Hp Hc. unfold makeRawTx.
  rewrite toLittleEndian_version, toLittleEndian_hexify, toLittleEndian_index by exact Hv.
  cbn [bind createOutputs outputs dest org join_map].
  rewrite (makeOutput_hexify payment) by exact Hp.
  rewrite (makeOutput_hexify (balance - payment - fee)) by exact Hc.
  cbn [bind]. rewrite getLen_hexify. unfold wire_output.
  rewrite !hexify_app. cbn [hexify].
  rewrite append_nil_r, !append_assoc. reflexivity.
Qed.

Lemma makeRawTx_wire_format_witness :
  (0 <= 1 < 2 ^ 32 /\ 0 <= 1000 < 2 ^ 64 /\ 0 <= 10000 - 1000 - 1000 < 2 ^ 64) /\
  makeRawTx (createOutputs tx0 10000 1000 1000)
    (hexify [xdc; x2a; x7f; xa8]) 1 (hexify [xab; xcd]) =
    Ok (hexify
          (le_bytes 4 1 ++ [x01] ++ rev [xdc; x2a; x7f; xa8] ++ le_bytes 4 1
             ++ varint (Z.of_nat (List.length [xab; xcd])) ++ [xab; xcd]
             ++ [xff; xff; xff; xff]
             ++ [x02]
             ++ (le_bytes 8 1000
                   ++ varint (Z.of_nat (List.length (wire_script (pub_key_hash (dest tx0)))))
                   ++ wire_script (pub_key_hash (dest tx0)))
             ++ (le_bytes 8 (10000 - 1000 - 1000)
                   ++ varint (Z.of_nat (List.length (wire_script (pub_key_hash (org tx0)))))
                   ++ wire_script (pub_key_hash (org tx0)))
             ++ le_bytes 4 0)).
Proof.
  split; [lia | apply (makeRawTx_wire_format tx0 10000 1000 1000); lia].
Defined.

(** The transaction of the specification's scenario, with the reference
    of [__main__] and a two-byte unlocking script, as text. *)
Example makeRawTx_scenario :
  makeRawTx (createOutputs tx0 10000 1000 1000) main_txid 1 "abcd" =
    Ok ("01000000" +s "01"
        +s "01be8f527b6a759518666d588a4c90f49dedd186df9308e77f32938ca87f2adc"
        +s "01000000" +s "02" +s "abcd" +s "ffffffff" +s "02"
        +s "e803000000000000" +s "19"
        +s "76a914222222222222222222222222222222222222222288ac"
        +s "401f000000000000" +s "19"
        +s "76a914111111111111111111111111111111111111111188ac"
        +s "00000000").
Proof. vm_compute. reflexivity. Qed.

(** ** C4: the signature-hash preimage *)

(** [makeRawTx] field by field: only two of the fields depend on the
    unlocking script. *)
Lemma makeRawTx_fields (self : Transaction) (txid : string) (vout : Z) (script : string) :
  makeRawTx self txid vout script =
    (let* id_le := toLittleEndian (StrArg txid) in
     let* index_le := toLittleEndian (IntArg vout) in
     let* outs :=
       match outputs self with
       | Some l => join_map makeOutput l
       | None => Raise AttributeError
       end in
     Ok ("01000000" +s "01" +s id_le +s index_le +s getLen script +s script
         +s "ffffffff" +s "02" +s outs +s "00000000")).
Proof.
  unfold makeRawTx. rewrite toLittleEndian_version. cbn [bind].
  destruct (toLittleEndian (StrArg txid)) as [id_le|e]; [|reflexivity].
  destruct (toLittleEndian (IntArg vout)) as [index_le|e]; [|reflexivity].
  cbn [bind].
  destruct (match outputs self with
            | Some l => join_map makeOutput l
            | None => Raise AttributeError
            end) as [outs|e]; [|reflexivity].
  cbn [bind]. rewrite !append_assoc. reflexivity.
Qed.

Lemma sighash_tag : struct_pack_ltL (int_from_bytes_big HASH_CODE_TYPE) = Ok (le_bytes 4 1).
Proof. reflexivity. Qed.

(** The text that is hashed and a text that [makeRawTx] returns, for the
    same reference and any script: both have the same version, input
    count, reversed id, index, sequence, output count, outputs and
    locktime; they differ in the script and its length prefix, and the
    hashed text ends with the sighash type 1 on 4 little-endian bytes. *)
Lemma makeRawTx_and_preimage_fields (self : Transaction) (txid : string) (vout : Z)
    (scriptSig final : string) :
  makeRawTx self txid vout scriptSig = Ok final ->
  exists id_le index_le outs : string,
    toLittleEndian (StrArg txid) = Ok id_le /\
    toLittleEndian (IntArg vout) = Ok index_le /\
    (exists l, outputs self = Some l /\ join_map makeOutput l = Ok outs) /\
    final =
      "01000000" +s "01" +s id_le +s index_le +s getLen scriptSig +s scriptSig
      +s "ffffffff" +s "02" +s outs +s "00000000" /\
    sigHashPreimage self txid vout =
      Ok ("01000000" +s "01" +s id_le +s index_le
          +s getLen (makeScriptPubKey (hexify (pub_key_hash (org self))))
          +s makeScriptPubKey (hexify (pub_key_hash (org self)))
          +s "ffffffff" +s "02" +s outs +s "00000000"
          +s hexify (le_bytes 4 1)).
Proof.
  intros H. unfold sigHashPreimage. rewrite sighash_tag.
  rewrite makeRawTx_fields in H. rewrite makeRawTx_fields.
  destruct (toLittleEndian (StrArg txid)) as [id_le|e]; [|discriminate].
  destruct (toLittleEndian (IntArg vout)) as [index_le|e]; [|discriminate].
  cbn [bind] in *.
  destruct (outputs self) as [l|]; [|discriminate].
  destruct (join_map makeOutput l) as [outs|e] eqn:Hl; [|discriminate].
  cbn [bind] in *. injection H as <-.
  exists id_le, index_le, outs.
  repeat (split; [reflexivity|]).
  split; [exists l; split; [reflexivity | exact Hl]|].
  split; [reflexivity|].
  rewrite !append_assoc. reflexivity.
Qed.

(** The preimage of the scenario, as text: the 25-byte locking script of
    the spender stands where the unlocking script will be. *)
Example sigHashPreimage_scenario :
  sigHashPreimage (createOutputs tx0 10000 1000 1000) main_txid 1 =
    Ok ("01000000" +s "01"
        +s "01be8f527b6a759518666d588a4c90f49dedd186df9308e77f32938ca87f2adc"
        +s "01000000" +s "19"
        +s "76a914111111111111111111111111111111111111111188ac"
        +s "ffffffff" +s "02"
        +s "e803000000000000" +s "19"
        +s "76a914222222222222222222222222222222222222222288ac"
        +s "401f000000000000" +s "19"
        +s "76a914111111111111111111111111111111111111111188ac"
        +s "00000000" +s "01000000").
Proof. vm_compute. reflexivity. Qed.

(** ** C7: amounts that overspend the balance *)

(** C7, counterexample: with balance 1000, payment 1000 and fee 1,
    [createOutputs] accepts the amounts and stores the change -1; the
    payment output is encoded; the failure is the [struct.error] of the
    change output, raised inside [makeRawTx]. *)
Lemma createOutputs_accepts_overspend :
  1000 + 1 > 1000 /\
  outputs (createOutputs tx0 1000 1000 1) =
    Some [ (1000, hexify recipient_hash); (-1, hexify spender_hash) ] /\
  makeOutput (1000, hexify recipient_hash) =
    Ok ("e803000000000000" +s "19"
        +s "76a914222222222222222222222222222222222222222288ac") /\
  makeRawTx (createOutputs tx0 1000 1000 1) main_txid 1 "abcd" = Raise StructError.
Proof.
  split; [lia|]. repeat split; vm_compute; reflexivity.
Qed.

Lemma join_map_two_negative (o1 : Z * string) (change : Z) (addr : string) :
  change < 0 ->
  exists e, join_map makeOutput [o1; (change, addr)] = Raise e.
Proof.
  intros H. cbn [join_map].
  destruct (makeOutput o1) as [t|e]; cbn [bind]; [|eauto].
  rewrite makeOutput_negative by exact H. cbn [bind]. eauto.
Qed.

Lemma makeRawTx_overspend (self : Transaction) (balance payment fee : Z)
    (txid : string) (vout : Z) (script : string) :
  payment + fee > balance ->
  exists e, makeRawTx (createOutputs self balance payment fee) txid vout script = Raise e.
Proof.
  intros H. rewrite makeRawTx_fields.
  destruct (toLittleEndian (StrArg txid)) as [id_le|e]; cbn [bind]; [|eauto].
  destruct (toLittleEndian (IntArg vout)) as [index_le|e]; cbn [bind]; [|eauto].
  cbn [createOutputs outputs].
  destruct (join_map_two_negative (payment, hexify (pub_key_hash (dest self)))
              (balance - payment - fee) (hexify (pub_key_hash (org self)))) as [e He];
    [lia|].
  rewrite He. cbn [bind]. eauto.
Qed.

(** C7, amended: when [payment + fee > balance], [createOutputs] does not
    reject the amounts: it stores the negative change
    [balance - payment - fee]. The failure comes later, in the output
    encoder, where packing the negative change on 8 unsigned bytes raises
    [struct.error]; [makeRawTx] and [makeSignedTx] therefore raise and
    return no transaction bytes. *)
Theorem overspend_fails_in_output_encoder (E : EcdsaLib) (self : Transaction)
    (balance payment fee : Z) (txid : string) (vout : Z) (script : string)
    (fuel : nat) (rnd : nat -> Z) :
  payment + fee > balance ->
  outputs (createOutputs self balance payment fee) =
    Some [ (payment, hexify (pub_key_hash (dest self)));
           (balance - payment - fee, hexify (pub_key_hash (org self))) ] /\
  makeOutput (balance - payment - fee, hexify (pub_key_hash (org self))) =
    Raise StructError /\
  (exists e,
     makeRawTx (createOutputs self balance payment fee) txid vout script = Raise e) /\
  (exists e,
     makeSignedTx E fuel (createOutputs self balance payment fee) rnd txid vout =
       Done (Raise e)).
Proof.
  intros H.
  split; [reflexivity|].
  split; [apply makeOutput_negative; lia|].
  split; [apply makeRawTx_overspend; exact H|].
  unfold makeSignedTx, txDigest, sigHashPreimage.
  destruct (makeRawTx_overspend self balance payment fee txid vout
              (makeScriptPubKey
                 (hexify (pub_key_hash (org (createOutputs self balance payment fee)))))
              H) as [e He].
  rewrite He. cbn [bind]. eauto.
Qed.

Lemma overspend_fails_in_output_encoder_witness :
  1000 + 1 > 1000 /\
  outputs (createOutputs tx0 1000 1000 1) =
    Some [ (1000, hexify (pub_key_hash (dest tx0)));
           (1000 - 1000 - 1, hexify (pub_key_hash (org tx0))) ] /\
  makeOutput (1000 - 1000 - 1, hexify (pub_key_hash (org tx0))) = Raise StructError /\
  (exists e,
     makeRawTx (createOutputs tx0 1000 1000 1) main_txid 1 "abcd" = Raise e) /\
  (exists e,
     makeSignedTx Secp256k1.lib 1 (createOutputs tx0 1000 1000 1) (fun _ => 1)
       main_txid 1 = Done (Raise e)).
Proof.
  split; [lia|].
  apply (overspend_fails_in_output_encoder Secp256k1.lib tx0 1000 1000 1 main_txid 1
           "abcd" 1 (fun _ => 1)).
  lia.
Defined.

(** ** C9: the checksum of the message envelope *)

Lemma firstn_skipn_middle {A : Type} (x y z : list A) :
  firstn (List.length y) (skipn (List.length x) (x ++ y ++ z)) = y.
Proof.
  rewrite skipn_app, skipn_all, Nat.sub_diag. cbn [skipn app].
  rewrite firstn_app, firstn_all, Nat.sub_diag. cbn [firstn]. apply app_nil_r.
Qed.

Lemma length_pack_s (n : nat) (b : bytes) : List.length (pack_s n b) = n.
Proof.
  unfold pack_s. rewrite length_firstn, length_app, repeat_length. lia.
Qed.

(** What [makeMessage] puts in the checksum field, for every payload: the
    first four characters of the hexadecimal text of the byte-reversed
    checksum, as ASCII. *)
Lemma makeMessage_checksum_field (pl : platform) (command : string)
    (payload msg : bytes) :
  makeMessage pl command payload = Ok msg ->
  envelope_checksum msg payload =
    pack_s 4 (encode_utf8 (hexify (rev (firstn 4 (sha256 (sha256 payload)))))).
Proof.
  unfold makeMessage. rewrite toLittleEndian_hexify. cbn [bind].
  unfold struct_pack_L12sL4s.
  destruct (struct_pack_le (sizeof_long pl) MAGIC_BYTES) as [fa|e]; [|discriminate].
  cbn [bind].
  destruct (struct_pack_le (sizeof_long pl) (Z.of_nat (List.length payload))) as [fc|e];
    [|discriminate].
  cbn [bind]. intros H. injection H as <-.
  set (fd := pack_s 4 _).
  set (hd := (pad_to (sizeof_long pl) (fa ++ pack_s 12 (encode_utf8 command)) ++ fc)%list).
  replace ((pad_to (sizeof_long pl) (fa ++ pack_s 12 (encode_utf8 command)) ++ fc ++ fd)
             ++ payload)%list
    with (hd ++ fd ++ payload)%list
    by (unfold hd; now rewrite <- !app_assoc).
  unfold envelope_checksum.
  replace (List.length (hd ++ fd ++ payload) - List.length payload - 4)%nat
    with (List.length hd).
  - replace 4%nat with (List.length fd) by apply length_pack_s.
    apply firstn_skipn_middle.
  - rewrite !length_app. unfold fd. rewrite length_pack_s. lia.
Qed.

(** C9, at the failing input (command "tx", empty payload, 8-byte native
    long): the first four bytes of the double hash are 5d f6 e0 e2, and
    the checksum field of the envelope holds the ASCII characters "e2e0"
    (65 32 65 30). *)
Theorem makeMessage_checksum_is_hex_text :
  firstn 4 (sha256 (sha256 [])) = [x5d; xf6; xe0; xe2] /\
  exists msg : bytes,
    makeMessage {| sizeof_long := 8 |} "tx" [] = Ok msg /\
    envelope_checksum msg [] = [x65; x32; x65; x30] /\
    envelope_checksum msg [] <> firstn 4 (sha256 (sha256 [])).
Proof.
  split; [vm_compute; reflexivity|].
  eexists. split; [vm_compute; reflexivity|].
  split; [vm_compute; reflexivity|].
  vm_compute. discriminate.
Qed.

(** The same with a 4-byte native long. *)
Example makeMessage_checksum_is_hex_text_long4 :
  exists msg : bytes,
    makeMessage {| sizeof_long := 4 |} "tx" [] = Ok msg /\
    envelope_checksum msg [] = [x65; x32; x65; x30].
Proof. eexists. split; vm_compute; reflexivity. Qed.

(** ** C10: the digest that is signed *)

Lemma unhexify_inv (s : string) (x : byte) (t : bytes) :
  unhexify s = Ok (x :: t) ->
  exists hi lo r h l,
    s = String hi (String lo r) /\ unhexdigit hi = Some h /\ unhexdigit lo = Some l /\
    unhexify r = Ok t.
Proof.
  destruct s as [|hi [|lo r]]; try discriminate.
  cbn [unhexify].
  destruct (unhexdigit hi) as [h|] eqn:Hh; [|discriminate].
  destruct (unhexdigit lo) as [l|] eqn:Hl; [|discriminate].
  destruct (unhexify r) as [t'|e] eqn:Hr; cbn [bind]; [|discriminate].
  intros H. injection H as _ <-.
  exists hi, lo, r, h, l. repeat split; assumption || reflexivity.
Qed.

Lemma unhexify_nil (s : string) : unhexify s = Ok [] -> s = EmptyString.
Proof.
  destruct s as [|hi [|lo r]]; [reflexivity | discriminate |].
  cbn [unhexify].
  destruct (unhexdigit hi); [|discriminate].
  destruct (unhexdigit lo); [|discriminate].
  destruct (unhexify r); discriminate.
Qed.

Lemma unhexdigit_ascii (c : ascii) (h : Z) :
  unhexdigit c = Some h -> (Z.of_N (N_of_ascii c) <? 128) = true.
Proof.
  destruct c as [[] [] [] [] [] [] [] []]; vm_compute; congruence.
Qed.

(** Text that [unhexify] accepts is ASCII: its UTF-8 encoding has one
    byte per character, two per byte denoted. *)
Lemma encode_utf8_hex_length (b : bytes) :
  forall s, unhexify s = Ok b ->
    List.length (encode_utf8 s) = (2 * List.length b)%nat.
Proof.
  induction b as [|x t IH]; intros s H.
  - apply unhexify_nil in H. subst s. reflexivity.
  - apply unhexify_inv in H.
    destruct H as (hi & lo & r & h & l & -> & Hh & Hl & Hr).
    cbn [encode_utf8].
    rewrite (unhexdigit_ascii hi h Hh), (unhexdigit_ascii lo l Hl).
    cbn [List.length]. rewrite (IH r Hr). lia.
Qed.

Lemma unhexify_length (b : bytes) :
  forall s, unhexify s = Ok b -> String.length s = (2 * List.length b)%nat.
Proof.
  induction b as [|x t IH]; intros s H.
  - apply unhexify_nil in H. subst s. reflexivity.
  - apply unhexify_inv in H.
    destruct H as (hi & lo & r & h & l & -> & _ & _ & Hr).
    cbn [String.length List.length]. rewrite (IH r Hr). lia.
Qed.

Lemma sigHashPreimage_length (self : Transaction) (txid : string) (vout : Z)
    (rawTx : string) :
  sigHashPreimage self txid vout = Ok rawTx -> (8 <= String.length rawTx)%nat.
Proof.
  unfold sigHashPreimage. rewrite sighash_tag.
  destruct (makeRawTx self txid vout _) as [raw|e]; cbn [bind]; [|discriminate].
  intros H. injection H as <-. rewrite length_append.
  cbn [String.length]. lia.
Qed.

(** C10: the digest handed to [signTx] is the double SHA-256 of the UTF-8
    encoding of the hexadecimal text of the preimage. That encoding has
    one byte per hexadecimal character, twice as many as the bytes the
    text denotes, so what is hashed is not the binary preimage. *)
Theorem txDigest_hashes_the_hex_text (E : EcdsaLib) (fuel : nat) (self : Transaction)
    (rnd : nat -> Z) (txid : string) (vout : Z) (rawTx : string) :
  sigHashPreimage self txid vout = Ok rawTx ->
  txDigest self txid vout = Ok (sha256 (sha256 (encode_utf8 rawTx))) /\
  makeSignedTx E fuel self rnd txid vout =
    obind (signTx E fuel self rnd (sha256 (sha256 (encode_utf8 rawTx))))
      (fun signedTx => Done (assemble_signed self txid vout signedTx)) /\
  (forall bin : bytes,
      unhexify rawTx = Ok bin ->
      List.length (encode_utf8 rawTx) = (2 * List.length bin)%nat /\
      encode_utf8 rawTx <> bin).
Proof.
  intros H.
  assert (Hd : txDigest self txid vout = Ok (sha256 (sha256 (encode_utf8 rawTx))))
    by (unfold txDigest; now rewrite H).
  split; [exact Hd|].
  split; [unfold makeSignedTx; now rewrite Hd|].
  intros bin Hb.
  pose proof (encode_utf8_hex_length bin rawTx Hb) as Hl.
  split; [exact Hl|].
  pose proof (unhexify_length bin rawTx Hb) as Hs.
  pose proof (sigHashPreimage_length self txid vout rawTx H) as H8.
  intros Heq. rewrite Heq in Hl. lia.
Qed.

Lemma txDigest_hashes_the_hex_text_witness :
  sigHashPreimage (createOutputs tx0 10000 1000 1000) main_txid 1 =
    Ok ("01000000" +s "01"
        +s "01be8f527b6a759518666d588a4c90f49dedd186df9308e77f32938ca87f2adc"
        +s "01000000" +s "19"
        +s "76a914111111111111111111111111111111111111111188ac"
        +s "ffffffff" +s "02"
        +s "e803000000000000" +s "19"
        +s "76a914222222222222222222222222222222222222222288ac"
        +s "401f000000000000" +s "19"
        +s "76a914111111111111111111111111111111111111111188ac"
        +s "00000000" +s "01000000") /\
  txDigest (createOutputs tx0 10000 1000 1000) main_txid 1 =
    Ok (sha256 (sha256 (encode_utf8
      ("01000000" +s "01"
        +s "01be8f527b6a759518666d588a4c90f49dedd186df9308e77f32938ca87f2adc"
        +s "01000000" +s "19"
        +s "76a914111111111111111111111111111111111111111188ac"
        +s "ffffffff" +s "02"
        +s "e803000000000000" +s "19"
        +s "76a914222222222222222222222222222222222222222288ac"
        +s "401f000000000000" +s "19"
        +s "76a914111111111111111111111111111111111111111188ac"
        +s "00000000" +s "01000000")))).
Proof.
  split; [vm_compute; reflexivity|].
  apply (txDigest_hashes_the_hex_text Secp256k1.lib 1
           (createOutputs tx0 10000 1000 1000) counting_nonce main_txid 1).
  vm_compute. reflexivity.
Defined.

(** On the scenario, the digest of the text and the digest of the bytes
    that the text denotes are different values. *)
Example txDigest_scenario_is_not_the_binary_digest :
  exists (rawTx : string) (bin : bytes),
    sigHashPreimage (createOutputs tx0 10000 1000 1000) main_txid 1 = Ok rawTx /\
    unhexify rawTx = Ok bin /\
    hexify (sha256 (sha256 (encode_utf8 rawTx))) =
      "da4bfbd228f97066e052bafa7d4891f7c18fdf5210f2e4f84f5a59e87c40d658"%string /\
    sha256 (sha256 (encode_utf8 rawTx)) <> sha256 (sha256 bin).
Proof.
  eexists. eexists.
  split; [vm_compute; reflexivity|].
  split; [vm_compute; reflexivity|].
  split; [vm_compute; reflexivity|].
  vm_compute. discriminate.
Qed.

(** ** The signing loop *)

(** [N / 2] is a float: the quotient rounds to 2 ^ 255. *)
Lemma Nby2_is_2_255 : int_truediv SECP256k1_order 2 = Ok two_255.
Proof. vm_compute. reflexivity. Qed.

Lemma int_lt_two_255 (s : Z) : int_lt_float s two_255 = (s <? 2 ^ 255).
Proof. reflexivity. Qed.

(** Half the order, as an integer, is below 2 ^ 255. *)
Lemma half_order_below_2_255 : SECP256k1_order / 2 + 1 < 2 ^ 255.
Proof. vm_compute. reflexivity. Qed.

Section SignerProperties.

Variable E : EcdsaLib.
Variable self : Transaction.
Variable tx : bytes.
Variable rnd : nat -> Z.

Lemma self_verify_inv (r s : Z) (u : unit) :
  self_verify E self tx r s = Ok u ->
  exists vk decodedSig,
    VerifyingKey_from_string E (pub_key (org self)) = Ok vk /\
    unhexify (fmt_064x r +s fmt_064x s) = Ok decodedSig /\
    verify_digest E vk decodedSig tx = Ok true.
Proof.
  unfold self_verify.
  destruct (VerifyingKey_from_string E (pub_key (org self))) as [vk|e]; [|discriminate].
  destruct (unhexify (fmt_064x r +s fmt_064x s)) as [decodedSig|e]; [|discriminate].
  cbn [bind].
  destruct (verify_digest E vk decodedSig tx) as [[|]|e] eqn:Hv; try discriminate.
  intros _. exists vk, decodedSig. repeat split; assumption || reflexivity.
Qed.

(** One iteration at an attempt that is not discarded. *)
Lemma signTx_loop_accepts (fuel : nat) (sk : SigningKey E) (Nby2 : pyfloat) (i : nat)
    (txSig : bytes) (r s : Z) :
  sign_digest_der E sk (rnd i) tx = Ok txSig ->
  sigdecode_der E txSig SECP256k1_order = Ok (r, s) ->
  int_lt_float s Nby2 = true ->
  signTx_loop E (S fuel) self sk Nby2 tx rnd i =
    Done (let* _ := self_verify E self tx r s in Ok txSig).
Proof.
  intros Hs Hd Hlt. cbn [signTx_loop]. rewrite Hs, Hd, Hlt.
  destruct (self_verify E self tx r s); reflexivity.
Qed.

(** One iteration at an attempt that is discarded. *)
Lemma signTx_loop_retries (fuel : nat) (sk : SigningKey E) (Nby2 : pyfloat) (i : nat) :
  retried E sk Nby2 tx (rnd i) = true ->
  signTx_loop E (S fuel) self sk Nby2 tx rnd i =
    signTx_loop E fuel self sk Nby2 tx rnd (S i).
Proof.
  unfold retried. cbn [signTx_loop].
  destruct (sign_digest_der E sk (rnd i) tx) as [txSig|e]; [|discriminate].
  destruct (sigdecode_der E txSig SECP256k1_order) as [[r s]|e]; [|discriminate].
  destruct (int_lt_float s Nby2); [discriminate | reflexivity].
Qed.

(** An attempt that is not discarded ends the loop. *)
Lemma signTx_loop_stops (fuel : nat) (sk : SigningKey E) (Nby2 : pyfloat) (i : nat) :
  retried E sk Nby2 tx (rnd i) = false ->
  exists r, signTx_loop E (S fuel) self sk Nby2 tx rnd i = Done r.
Proof.
  unfold retried. cbn [signTx_loop].
  destruct (sign_digest_der E sk (rnd i) tx) as [txSig|e]; [|eauto].
  destruct (sigdecode_der E txSig SECP256k1_order) as [[r s]|e]; [|eauto].
  destruct (int_lt_float s Nby2); [|discriminate].
  intros _. destruct (self_verify E self tx r s); eauto.
Qed.

(** While the attempts are discarded the loop is still running. *)
Lemma signTx_loop_running (sk : SigningKey E) (Nby2 : pyfloat) :
  forall fuel i,
    (forall j, (i <= j < i + fuel)%nat -> retried E sk Nby2 tx (rnd j) = true) ->
    signTx_loop E fuel self sk Nby2 tx rnd i = Running.
Proof.
  induction fuel as [|fuel IH]; intros i H; [reflexivity|].
  rewrite signTx_loop_retries by (apply H; lia).
  apply IH. intros j Hj. apply H. lia.
Qed.

(** After [n] discarded attempts the loop is at attempt [i + n]. *)
Lemma signTx_loop_skips (sk : SigningKey E) (Nby2 : pyfloat) :
  forall n fuel i,
    (forall j, (i <= j < i + n)%nat -> retried E sk Nby2 tx (rnd j) = true) ->
    signTx_loop E (n + fuel) self sk Nby2 tx rnd i =
      signTx_loop E fuel self sk Nby2 tx rnd (i + n).
Proof.
  induction n as [|n IH]; intros fuel i H.
  - now rewrite Nat.add_0_r.
  - cbn [Nat.add]. rewrite signTx_loop_retries by (apply H; lia).
    rewrite IH by (intros j Hj; apply H; lia).
    f_equal. lia.
Qed.

(** What the loop hands back was signed, decoded, accepted and verified. *)
Lemma signTx_loop_returned (sk : SigningKey E) (Nby2 : pyfloat) :
  forall fuel i txSig,
    signTx_loop E fuel self sk Nby2 tx rnd i = Done (Ok txSig) ->
    exists j r s,
      sign_digest_der E sk (rnd j) tx = Ok txSig /\
      sigdecode_der E txSig SECP256k1_order = Ok (r, s) /\
      int_lt_float s Nby2 = true /\
      self_verify E self tx r s = Ok tt.
Proof.
  induction fuel as [|fuel IH]; intros i txSig H; [discriminate|].
  cbn [signTx_loop] in H.
  destruct (sign_digest_der E sk (rnd i) tx) as [sig|e] eqn:Hs; [|discriminate].
  destruct (sigdecode_der E sig SECP256k1_order) as [[r s]|e] eqn:Hd; [|discriminate].
  destruct (int_lt_float s Nby2) eqn:Hlt.
  - destruct (self_verify E self tx r s) as [[]|e] eqn:Hv; [|discriminate].
    injection H as <-. exists i, r, s. repeat split; assumption.
  - apply IH in H. exact H.
Qed.

(** [signTx] in terms of its loop, once the key is parsed. *)
Lemma signTx_unfold (fuel : nat) (sk : SigningKey E) :
  SigningKey_from_string E (priv_key (org self)) = Ok sk ->
  signTx E fuel self rnd tx =
    obind (signTx_loop E fuel self sk two_255 tx rnd 0)
      (fun txSig => Done (Ok (txSig ++ HASH_CODE_TYPE)%list)).
Proof.
  intros H. unfold signTx. rewrite H, Nby2_is_2_255. reflexivity.
Qed.

Lemma signTx_returned (fuel : nat) (sig : bytes) :
  signTx E fuel self rnd tx = Done (Ok sig) ->
  exists sk txSig r s,
    SigningKey_from_string E (priv_key (org self)) = Ok sk /\
    sig = (txSig ++ HASH_CODE_TYPE)%list /\
    sigdecode_der E txSig SECP256k1_order = Ok (r, s) /\
    s < 2 ^ 255 /\
    self_verify E self tx r s = Ok tt.
Proof.
  unfold signTx.
  destruct (SigningKey_from_string E (priv_key (org self))) as [sk|e] eqn:Hk;
    [|discriminate].
  rewrite Nby2_is_2_255.
  destruct (signTx_loop E fuel self sk two_255 tx rnd 0) as [[txSig|e]|] eqn:Hl;
    cbn [obind]; try discriminate.
  intros H. injection H as <-.
  apply signTx_loop_returned in Hl. destruct Hl as (j & r & s & _ & Hd & Hlt & Hv).
  exists sk, txSig, r, s. repeat split; try assumption.
  rewrite int_lt_two_255 in Hlt. now apply Z.ltb_lt.
Qed.

Lemma signTx_running (sk : SigningKey E) (fuel : nat) :
  SigningKey_from_string E (priv_key (org self)) = Ok sk ->
  (forall j, (j < fuel)%nat -> retried E sk two_255 tx (rnd j) = true) ->
  signTx E fuel self rnd tx = Running.
Proof.
  intros Hk H. rewrite (signTx_unfold fuel sk Hk).
  rewrite signTx_loop_running; [reflexivity|].
  intros j Hj. apply H. lia.
Qed.

Lemma signTx_at_first_accepted (sk : SigningKey E) (fuel i : nat) (txSig : bytes)
    (r s : Z) :
  SigningKey_from_string E (priv_key (org self)) = Ok sk ->
  (forall j, (j < i)%nat -> retried E sk two_255 tx (rnd j) = true) ->
  sign_digest_der E sk (rnd i) tx = Ok txSig ->
  sigdecode_der E txSig SECP256k1_order = Ok (r, s) ->
  int_lt_float s two_255 = true ->
  (i < fuel)%nat ->
  signTx E fuel self rnd tx =
    Done (let* vk := VerifyingKey_from_string E (pub_key (org self)) in
          let* decodedSig := unhexify (fmt_064x r +s fmt_064x s) in
          let* ok := verify_digest E vk decodedSig tx in
          if ok then Ok (txSig ++ HASH_CODE_TYPE)%list else Raise AssertionError).
Proof.
  intros Hk Hr Hs Hd Hlt Hf. rewrite (signTx_unfold fuel sk Hk).
  replace fuel with (i + S (fuel - i - 1))%nat by lia.
  rewrite signTx_loop_skips by (intros j Hj; apply Hr; lia).
  rewrite (signTx_loop_accepts _ sk two_255 _ txSig r s Hs Hd Hlt).
  unfold self_verify.
  destruct (VerifyingKey_from_string E (pub_key (org self))) as [vk|e]; [|reflexivity].
  destruct (unhexify (fmt_064x r +s fmt_064x s)) as [decodedSig|e]; [|reflexivity].
  cbn [bind].
  destruct (verify_digest E vk decodedSig tx) as [[|]|e]; reflexivity.
Qed.

Lemma signTx_stops_at_first_kept (sk : SigningKey E) (fuel i : nat) :
  SigningKey_from_string E (priv_key (org self)) = Ok sk ->
  (forall j, (j < i)%nat -> retried E sk two_255 tx (rnd j) = true) ->
  retried E sk two_255 tx (rnd i) = false ->
  (i < fuel)%nat ->
  exists r, signTx E fuel self rnd tx = Done r.
Proof.
  intros Hk Hr Hn Hf. rewrite (signTx_unfold fuel sk Hk).
  replace fuel with (i + S (fuel - i - 1))%nat by lia.
  rewrite signTx_loop_skips by (intros j Hj; apply Hr; lia).
  destruct (signTx_loop_stops (fuel - i - 1) sk two_255 (0 + i) Hn) as [[a|e] Hstop];
    rewrite Hstop; cbn [obind]; eauto.
Qed.

End SignerProperties.

(** ** C2: self-verification *)

(** C2: every signature that [signTx] returns was verified, before the
    return, against the key parsed from the signer's [pub_key] and the
    digest it was given; and at the first attempt that passes the test
    on [s], a verification that does not succeed makes [signTx] raise
    ([AssertionError], or the exception of the library) instead of
    returning the signature. *)
Theorem signTx_self_verification (E : EcdsaLib) (self : Transaction)
    (rnd : nat -> Z) (tx : bytes) (fuel : nat) :
  (forall sig : bytes,
      signTx E fuel self rnd tx = Done (Ok sig) ->
      exists txSig r s vk decodedSig,
        sig = (txSig ++ HASH_CODE_TYPE)%list /\
        sigdecode_der E txSig SECP256k1_order = Ok (r, s) /\
        VerifyingKey_from_string E (pub_key (org self)) = Ok vk /\
        unhexify (fmt_064x r +s fmt_064x s) = Ok decodedSig /\
        verify_digest E vk decodedSig tx = Ok true) /\
  (forall (sk : SigningKey E) (i : nat) (txSig : bytes) (r s : Z),
      SigningKey_from_string E (priv_key (org self)) = Ok sk ->
      (forall j, (j < i)%nat -> retried E sk two_255 tx (rnd j) = true) ->
      sign_digest_der E sk (rnd i) tx = Ok txSig ->
      sigdecode_der E txSig SECP256k1_order = Ok (r, s) ->
      int_lt_float s two_255 = true ->
      (i < fuel)%nat ->
      signTx E fuel self rnd tx =
        Done (let* vk := VerifyingKey_from_string E (pub_key (org self)) in
              let* decodedSig := unhexify (fmt_064x r +s fmt_064x s) in
              let* ok := verify_digest E vk decodedSig tx in
              if ok then Ok (txSig ++ HASH_CODE_TYPE)%list else Raise AssertionError)).
Proof.
  split.
  - intros sig H. apply signTx_returned in H.
    destruct H as (sk & txSig & r & s & _ & -> & Hd & _ & Hv).
    apply self_verify_inv in Hv. destruct Hv as (vk & decodedSig & Hk & Hu & Hok).
    exists txSig, r, s, vk, decodedSig. repeat split; assumption.
  - intros sk i txSig r s. apply signTx_at_first_accepted.
Qed.

(** With the spender's wallet the second attempt is returned, verified;
    with a wallet whose public key belongs to another private key the
    first accepted attempt raises. *)
Lemma signTx_self_verification_witness :
  (exists sig : bytes,
      signTx Secp256k1.lib 5 tx0 counting_nonce digest_empty = Done (Ok sig) /\
      exists txSig r s vk decodedSig,
        sig = (txSig ++ HASH_CODE_TYPE)%list /\
        sigdecode_der Secp256k1.lib txSig SECP256k1_order = Ok (r, s) /\
        VerifyingKey_from_string Secp256k1.lib (pub_key (org tx0)) = Ok vk /\
        unhexify (fmt_064x r +s fmt_064x s) = Ok decodedSig /\
        verify_digest Secp256k1.lib vk decodedSig digest_empty = Ok true) /\
  signTx Secp256k1.lib 5 (Transaction_init mismatched recipient) counting_nonce
    digest_empty = Done (Raise (LibraryError "BadSignatureError")).
Proof.
  split.
  - eexists. split; [vm_compute; reflexivity|].
    apply (proj1 (signTx_self_verification Secp256k1.lib tx0 counting_nonce
                    digest_empty 5)).
    vm_compute. reflexivity.
  - etransitivity.
    + apply (proj2 (signTx_self_verification Secp256k1.lib
                      (Transaction_init mismatched recipient) counting_nonce
                      digest_empty 5)
               3301 1%nat
               (Secp256k1.sigencode_der
                  0xd4445d62450b60d027841add08e67215c1cf8ee7b00fe4d271de26a27d8fe204
                  0x654cd182af0551428f39f6368f5e115c78885b684c48095b4db0aa5648d203a9)
               0xd4445d62450b60d027841add08e67215c1cf8ee7b00fe4d271de26a27d8fe204
               0x654cd182af0551428f39f6368f5e115c78885b684c48095b4db0aa5648d203a9).
      * vm_compute. reflexivity.
      * intros j Hj. assert (j = 0%nat) as -> by lia. vm_compute. reflexivity.
      * vm_compute. reflexivity.
      * vm_compute. reflexivity.
      * vm_compute. reflexivity.
      * lia.
    + vm_compute. reflexivity.
Defined.

(** ** C3: the retry loop *)

(** C3, counterexample: with the nonce 1337 at every attempt and the
    digest [digest_top], every attempt gives [s = order - 1], which is
    discarded; [signTx] neither returns nor raises, whatever the number
    of iterations. *)
Lemma signTx_never_finishes :
  ~ exists (fuel : nat) (r : result bytes),
      signTx Secp256k1.lib fuel tx0 constant_nonce digest_top = Done r.
Proof.
  intros (fuel & r & H).
  rewrite (signTx_running Secp256k1.lib tx0 digest_top constant_nonce 3301 fuel) in H.
  - discriminate.
  - vm_compute. reflexivity.
  - intros j _. vm_compute. reflexivity.
Qed.

(** C3, amended: the loop has no retry cap and no exhaustion error.
    While the attempts give an [s] that is not below [Nby2], [signTx]
    signs again: after [i] such attempts it is still running. It stops
    (returns or raises) at the first attempt that is not discarded. *)
Theorem signTx_retries_without_cap (E : EcdsaLib) (self : Transaction)
    (rnd : nat -> Z) (tx : bytes) (sk : SigningKey E) (i : nat) :
  SigningKey_from_string E (priv_key (org self)) = Ok sk ->
  (forall j, (j < i)%nat -> retried E sk two_255 tx (rnd j) = true) ->
  (forall fuel, (fuel <= i)%nat -> signTx E fuel self rnd tx = Running) /\
  (retried E sk two_255 tx (rnd i) = false ->
   forall fuel, (i < fuel)%nat -> exists r, signTx E fuel self rnd tx = Done r).
Proof.
  intros Hk Hr. split.
  - intros fuel Hf. apply (signTx_running E self tx rnd sk fuel Hk).
    intros j Hj. apply Hr. lia.
  - intros Hn fuel Hf. now apply (signTx_stops_at_first_kept E self tx rnd sk fuel i).
Qed.

(** On the double hash of the empty message, with nonces 1337, 1338, ...:
    the first attempt is discarded and the second one ends the loop. *)
Lemma signTx_retries_without_cap_witness :
  SigningKey_from_string Secp256k1.lib (priv_key (org tx0)) = Ok 3301 /\
  retried Secp256k1.lib 3301 two_255 digest_empty (counting_nonce 0) = true /\
  retried Secp256k1.lib 3301 two_255 digest_empty (counting_nonce 1) = false /\
  (forall fuel, (fuel <= 1)%nat ->
     signTx Secp256k1.lib fuel tx0 counting_nonce digest_empty = Running) /\
  (forall fuel, (1 < fuel)%nat ->
     exists r, signTx Secp256k1.lib fuel tx0 counting_nonce digest_empty = Done r).
Proof.
  split; [vm_compute; reflexivity|].
  split; [vm_compute; reflexivity|].
  split; [vm_compute; reflexivity|].
  destruct (signTx_retries_without_cap Secp256k1.lib tx0 counting_nonce digest_empty
              3301 1%nat) as [H1 H2].
  - vm_compute. reflexivity.
  - intros j Hj. assert (j = 0%nat) as -> by lia. vm_compute. reflexivity.
  - split; [exact H1|]. apply H2. vm_compute. reflexivity.
Defined.

(** ** C1: the bound on [s] *)

(** What the test [s < Nby2] guarantees: a returned signature has
    [s < 2 ^ 255]. *)
Lemma signTx_s_below_2_255 (E : EcdsaLib) (self : Transaction) (rnd : nat -> Z)
    (tx : bytes) (fuel : nat) (sig : bytes) :
  signTx E fuel self rnd tx = Done (Ok sig) ->
  exists txSig r s,
    sig = (txSig ++ HASH_CODE_TYPE)%list /\
    sigdecode_der E txSig SECP256k1_order = Ok (r, s) /\
    s < 2 ^ 255.
Proof.
  intros H. apply signTx_returned in H.
  destruct H as (sk & txSig & r & s & _ & Hsig & Hd & Hlt & _).
  exists txSig, r, s. repeat split; assumption.
Qed.

(** C1, at the failing input (private key 3301, nonce 1337, digest
    [digest_half_plus_one]): [signTx] returns, after its
    self-verification, a signature whose [s] is [order / 2 + 1]; twice
    this [s] exceeds the order, so [s] is above half the order. It
    passes the test because [Nby2] is the float 2 ^ 255. *)
Theorem signTx_returns_s_above_half_order :
  exists (txSig : bytes) (r s : Z),
    unhexify
      ("3045" +s "0221"
       +s "00db0c51cc634a4096374b0b895584a3ca2fb3bea4fd0ee2361f8db63a650fcee6"
       +s "0220"
       +s "7fffffffffffffffffffffffffffffff5d576e7357a4501ddfe92f46681b20a1")
      = Ok txSig /\
    signTx Secp256k1.lib 1 tx0 constant_nonce digest_half_plus_one =
      Done (Ok (txSig ++ HASH_CODE_TYPE)%list) /\
    sigdecode_der Secp256k1.lib txSig SECP256k1_order = Ok (r, s) /\
    s = SECP256k1_order / 2 + 1 /\
    SECP256k1_order < 2 * s /\
    int_lt_float s two_255 = true.
Proof.
  eexists. eexists. eexists.
  split; [vm_compute; reflexivity|].
  split; [vm_compute; reflexivity|].
  split; [vm_compute; reflexivity|].
  split; [vm_compute; reflexivity|].
  split; vm_compute; reflexivity.
Qed.

(** * Further properties of the encoders *)

Lemma Z_of_byte_range (b : byte) : 0 <= Z_of_byte b < 256.
Proof.
  unfold Z_of_byte. pose proof (Byte.to_N_bounded b). lia.
Qed.

Lemma Z_of_byte_of_Z (z : Z) : Z_of_byte (byte_of_Z z) = z mod 256.
Proof.
  unfold Z_of_byte, byte_of_Z.
  assert (Hm : 0 <= z mod 256 < 256) by (apply Z.mod_pos_bound; lia).
  destruct (Byte.of_N (Z.to_N (z mod 256))) as [b|] eqn:Hb.
  - apply Byte.to_of_N in Hb. rewrite Hb. apply Z2N.id. lia.
  - apply Byte.of_N_None_iff in Hb. lia.
Qed.

Lemma length_le_bytes (n : nat) : forall v, List.length (le_bytes n v) = n.
Proof. induction n as [|n IH]; intros v; cbn [le_bytes List.length]; auto. Qed.

(** Little-endian bytes decode to the value they were made from. *)
Lemma int_from_bytes_little_le_bytes (n : nat) :
  forall v, 0 <= v < 2 ^ (8 * Z.of_nat n) ->
    int_from_bytes_little (le_bytes n v) = v.
Proof.
  induction n as [|n IH]; intros v H.
  - cbn in *. lia.
  - cbn [le_bytes int_from_bytes_little fold_right].
    fold (int_from_bytes_little (le_bytes n (v / 256))).
    rewrite Z_of_byte_of_Z, IH.
    + pose proof (Z.div_mod v 256). lia.
    + replace (8 * Z.of_nat (S n)) with (8 + 8 * Z.of_nat n) in H by lia.
      rewrite Z.pow_add_r in H by lia. change (2 ^ 8) with 256 in H.
      split; [apply Z.div_pos; lia|].
      apply Z.div_lt_upper_bound; lia.
Qed.

Lemma hexify_inj (a b : bytes) : hexify a = hexify b -> a = b.
Proof.
  intros H. apply (f_equal unhexify) in H.
  rewrite !unhexify_hexify in H. now injection H.
Qed.

(** Two texts with equal prefixes lengths: equal concatenations have
    equal parts. *)
Lemma append_inj (a b c d : string) :
  String.length a = String.length b -> a +s c = b +s d -> a = b /\ c = d.
Proof.
  revert b. induction a as [|x a IH]; intros [|y b] Hl H; try discriminate.
  - split; [reflexivity | exact H].
  - cbn in Hl, H. injection H as -> H. injection Hl as Hl.
    destruct (IH b Hl H) as [-> ->]. split; reflexivity.
Qed.

Lemma struct_pack_le_inv (w : nat) (v : Z) (b : bytes) :
  struct_pack_le w v = Ok b -> 0 <= v < 2 ^ (8 * Z.of_nat w) /\ b = le_bytes w v.
Proof.
  unfold struct_pack_le.
  destruct (0 <=? v) eqn:H0; destruct (v <? 2 ^ (8 * Z.of_nat w)) eqn:H1;
    cbn [andb]; try discriminate.
  intros H. injection H as <-.
  apply Z.leb_le in H0. apply Z.ltb_lt in H1. split; [lia | reflexivity].
Qed.

Lemma struct_pack_le_out_of_range (w : nat) (v : Z) :
  ~ 0 <= v < 2 ^ (8 * Z.of_nat w) -> struct_pack_le w v = Raise StructError.
Proof.
  intros H. unfold struct_pack_le.
  destruct (0 <=? v) eqn:H0; destruct (v <? 2 ^ (8 * Z.of_nat w)) eqn:H1;
    cbn [andb]; try reflexivity.
  apply Z.leb_le in H0. apply Z.ltb_lt in H1. lia.
Qed.

Lemma makeOutput_inv (value : Z) (addr t : string) :
  makeOutput (value, addr) = Ok t ->
  0 <= value < 2 ^ 64 /\
  t = hexify (le_bytes 8 value) +s getLen (makeScriptPubKey addr) +s makeScriptPubKey addr.
Proof.
  unfold makeOutput, struct_pack_ltQ.
  destruct (struct_pack_le 8 value) as [b|e] eqn:Hp; cbn [bind]; [|discriminate].
  apply struct_pack_le_inv in Hp. destruct Hp as [Hr ->].
  intros H. injection H as <-. split; [exact Hr | reflexivity].
Qed.

(** X1: [makeOutput] encodes an amount only when it fits 8 unsigned
    bytes, otherwise it raises [struct.error] and nothing is wrapped or
    truncated; and two amounts that encode, for the same address, to the
    same text are the same amount. *)
Theorem makeOutput_amount_faithful (v1 v2 : Z) (addr : string) :
  (~ 0 <= v1 < 2 ^ 64 -> makeOutput (v1, addr) = Raise StructError) /\
  (forall t, makeOutput (v1, addr) = Ok t -> makeOutput (v2, addr) = Ok t -> v1 = v2).
Proof.
  split.
  - intros H. unfold makeOutput, struct_pack_ltQ.
    now rewrite struct_pack_le_out_of_range.
  - intros t H1 H2.
    apply makeOutput_inv in H1. destruct H1 as [R1 E1].
    apply makeOutput_inv in H2. destruct H2 as [R2 E2].
    rewrite E1 in E2. apply append_inj in E2.
    + destruct E2 as [E _]. apply hexify_inj in E.
      apply (f_equal int_from_bytes_little) in E.
      rewrite !int_from_bytes_little_le_bytes in E by exact R1 || exact R2.
      exact E.
    + now rewrite !length_hexify, !length_le_bytes.
Qed.

Lemma makeOutput_amount_faithful_witness :
  (~ 0 <= 2 ^ 64 < 2 ^ 64 /\ makeOutput (2 ^ 64, hexify recipient_hash) = Raise StructError) /\
  (makeOutput (1000, hexify recipient_hash) =
     Ok ("e803000000000000" +s "19"
         +s "76a914222222222222222222222222222222222222222288ac") /\
   1000 = 1000).
Proof.
  split.
  - split; [lia|].
    apply (proj1 (makeOutput_amount_faithful (2 ^ 64) 0 (hexify recipient_hash))). lia.
  - split; [vm_compute; reflexivity|].
    apply (proj2 (makeOutput_amount_faithful 1000 1000 (hexify recipient_hash))
             ("e803000000000000" +s "19"
              +s "76a914222222222222222222222222222222222222222288ac"));
      vm_compute; reflexivity.
Defined.

(** ** The locking script determines the hash *)

Lemma length_varint (n : Z) :
  List.length (varint n) =
    if n <? 253 then 1%nat else if n <=? 65535 then 3%nat
    else if n <=? 4294967295 then 5%nat else 9%nat.
Proof.
  unfold varint.
  destruct (n <? 253); [reflexivity|].
  destruct (n <=? 65535); [reflexivity|].
  destruct (n <=? 4294967295); reflexivity.
Qed.

Lemma length_wire_script (h : bytes) :
  Z.of_nat (List.length (wire_script h)) =
    4 + Z.of_nat (List.length (varint (Z.of_nat (List.length h))))
      + Z.of_nat (List.length h).
Proof.
  unfold wire_script. rewrite !length_app. cbn [List.length]. lia.
Qed.

(** X2: the locking script determines the hash: two hashes with the same
    script are the same hash, whatever their lengths. *)
Theorem makeScriptPubKey_inj (h1 h2 : bytes) :
  makeScriptPubKey (hexify h1) = makeScriptPubKey (hexify h2) -> h1 = h2.
Proof.
  rewrite !makeScriptPubKey_hexify. intros H. apply hexify_inj in H.
  assert (Hn : List.length h1 = List.length h2).
  { pose proof (f_equal (fun l => Z.of_nat (List.length l)) H) as Hl.
    cbn beta in Hl. rewrite !length_wire_script, !length_varint in Hl.
    destruct (Z.of_nat (List.length h1) <? 253) eqn:A1;
      destruct (Z.of_nat (List.length h1) <=? 65535) eqn:B1;
      destruct (Z.of_nat (List.length h1) <=? 4294967295) eqn:C1;
      destruct (Z.of_nat (List.length h2) <? 253) eqn:A2;
      destruct (Z.of_nat (List.length h2) <=? 65535) eqn:B2;
      destruct (Z.of_nat (List.length h2) <=? 4294967295) eqn:C2;
      lia. }
  unfold wire_script in H. rewrite Hn in H.
  apply app_inv_head in H. apply app_inv_head in H. apply app_inv_tail in H.
  exact H.
Qed.

Lemma makeScriptPubKey_inj_witness :
  makeScriptPubKey (hexify spender_hash) = makeScriptPubKey (hexify (repeat x11 20)) /\
  spender_hash = repeat x11 20.
Proof.
  split; [reflexivity | apply (makeScriptPubKey_inj spender_hash (repeat x11 20)); reflexivity].
Defined.

(** ** Assembly and its failures *)

(** The transaction after [createOutputs], as the text of its bytes. *)
Lemma makeRawTx_bytes (self : Transaction) (balance payment fee : Z)
    (id script : bytes) (vout : Z) :
  0 <= vout < 2 ^ 32 ->
  0 <= payment < 2 ^ 64 ->
  0 <= balance - payment - fee < 2 ^ 64 ->
  makeRawTx (createOutputs self balance payment fee) (hexify id) vout (hexify script) =
    Ok (hexify (wire_tx id vout script payment (pub_key_hash (dest self))
                  (balance - payment - fee) (pub_key_hash (org self)))).
Proof.
  intros Hv Hp Hc. rewrite makeRawTx_fields.
  rewrite toLittleEndian_hexify, toLittleEndian_index by exact Hv.
  cbn [bind createOutputs outputs dest org join_map].
  rewrite (makeOutput_hexify payment) by exact Hp.
  rewrite (makeOutput_hexify (balance - payment - fee)) by exact Hc.
  cbn [bind]. rewrite getLen_hexify. unfold wire_tx.
  rewrite !hexify_app, append_nil_r, !append_assoc. reflexivity.
Qed.

Lemma toLittleEndian_index_inv (vout : Z) (t : string) :
  toLittleEndian (IntArg vout) = Ok t -> 0 <= vout < 2 ^ 32.
Proof.
  unfold toLittleEndian, struct_pack_ltL.
  destruct (struct_pack_le 4 vout) as [b|e] eqn:Hp; [|discriminate].
  intros _. apply struct_pack_le_inv in Hp. apply Hp.
Qed.

(** When the assembly after [createOutputs] succeeds, its result is the
    text of the transaction's bytes. *)
Lemma makeRawTx_bytes_inv (self : Transaction) (balance payment fee : Z)
    (id script : bytes) (vout : Z) (t : string) :
  makeRawTx (createOutputs self balance payment fee) (hexify id) vout (hexify script)
    = Ok t ->
  t = hexify (wire_tx id vout script payment (pub_key_hash (dest self))
                (balance - payment - fee) (pub_key_hash (org self))).
Proof.
  intros H. pose proof H as H'. rewrite makeRawTx_fields in H'.
  rewrite toLittleEndian_hexify in H'. cbn [bind] in H'.
  destruct (toLittleEndian (IntArg vout)) as [ix|e] eqn:Hx; [|discriminate].
  apply toLittleEndian_index_inv in Hx.
  cbn [bind createOutputs outputs dest org join_map] in H'.
  destruct (makeOutput (payment, _)) as [o1|e] eqn:H1; [|discriminate].
  destruct (makeOutput (balance - payment - fee, _)) as [o2|e] eqn:H2; [|discriminate].
  apply makeOutput_inv in H1. apply makeOutput_inv in H2.
  rewrite makeRawTx_bytes in H by tauto. now injection H.
Qed.

(** Whether the assembly fails, and how, does not depend on the script. *)
Lemma makeRawTx_raises_whatever_script (self : Transaction) (txid : string) (vout : Z)
    (s1 s2 : string) (e : exn) :
  makeRawTx self txid vout s1 = Raise e -> makeRawTx self txid vout s2 = Raise e.
Proof.
  rewrite !makeRawTx_fields.
  destruct (toLittleEndian (StrArg txid)) as [id_le|e1]; cbn [bind]; [|trivial].
  destruct (toLittleEndian (IntArg vout)) as [ix|e2]; cbn [bind]; [|trivial].
  destruct (match outputs self with
            | Some l => join_map makeOutput l
            | None => Raise AttributeError
            end) as [outs|e3]; cbn [bind]; [discriminate | trivial].
Qed.

(** X3: on a transaction whose outputs were never created, [makeRawTx]
    raises [AttributeError] once the reference is encoded, and
    [makeSignedTx] raises the same before any signature is attempted,
    whatever the number of loop iterations allowed. *)
Theorem makeSignedTx_without_outputs (E : EcdsaLib) (fuel : nat) (self : Transaction)
    (rnd : nat -> Z) (id : bytes) (vout : Z) (script : string) :
  outputs self = None ->
  0 <= vout < 2 ^ 32 ->
  makeRawTx self (hexify id) vout script = Raise AttributeError /\
  makeSignedTx E fuel self rnd (hexify id) vout = Done (Raise AttributeError).
Proof.
  intros Ho Hv.
  assert (H : forall s, makeRawTx self (hexify id) vout s = Raise AttributeError).
  { intros s. rewrite makeRawTx_fields, toLittleEndian_hexify,
      toLittleEndian_index by exact Hv.
    cbn [bind]. now rewrite Ho. }
  split; [apply H|].
  unfold makeSignedTx, txDigest, sigHashPreimage. now rewrite H.
Qed.

Lemma makeSignedTx_without_outputs_witness :
  (outputs tx0 = None /\ 0 <= 1 < 2 ^ 32) /\
  makeRawTx tx0 (hexify main_id) 1 "abcd" = Raise AttributeError /\
  makeSignedTx Secp256k1.lib 0 tx0 counting_nonce (hexify main_id) 1 =
    Done (Raise AttributeError).
Proof.
  split; [split; [reflexivity | lia]|].
  apply (makeSignedTx_without_outputs Secp256k1.lib 0 tx0 counting_nonce main_id 1 "abcd");
    [reflexivity | lia].
Defined.

(** ** [makeSignedTx] as a whole *)

(** X4: once the digest is computed, [makeSignedTx] ends as [signTx]
    ends. If [signTx] returns a signature, the final assembly cannot
    fail: the payload is [makeRawTx] on the script made of the
    length-prefixed signature and the length-prefixed public key, and it
    is stored in [txPayload]. If [signTx] raises, so does [makeSignedTx];
    while [signTx] is running, so is [makeSignedTx]. *)
Theorem makeSignedTx_follows_signTx (E : EcdsaLib) (fuel : nat) (self : Transaction)
    (rnd : nat -> Z) (txid : string) (vout : Z) (digest : bytes) :
  txDigest self txid vout = Ok digest ->
  (forall sig,
      signTx E fuel self rnd digest = Done (Ok sig) ->
      exists payload,
        makeRawTx self txid vout
          (hexify (varstr sig ++ varstr (pub_key (org self)))) = Ok payload /\
        makeSignedTx E fuel self rnd txid vout =
          Done (Ok ({| org := org self; dest := dest self; outputs := outputs self;
                       txPayload := Some payload |}, payload))) /\
  (forall e,
      signTx E fuel self rnd digest = Done (Raise e) ->
      makeSignedTx E fuel self rnd txid vout = Done (Raise e)) /\
  (signTx E fuel self rnd digest = Running ->
   makeSignedTx E fuel self rnd txid vout = Running).
Proof.
  intros Hd. unfold makeSignedTx. rewrite Hd.
  split; [|split; intros; match goal with H : signTx _ _ _ _ _ = _ |- _ => now rewrite H end].
  intros sig Hs. rewrite Hs. cbn [obind]. unfold assemble_signed.
  rewrite <- hexify_app.
  destruct (makeRawTx self txid vout (hexify (varstr sig ++ varstr (pub_key (org self)))))
    as [payload|e] eqn:Hr.
  - exists payload. split; reflexivity.
  - exfalso. unfold txDigest, sigHashPreimage in Hd.
    rewrite (makeRawTx_raises_whatever_script self txid vout _
               (makeScriptPubKey (hexify (pub_key_hash (org self)))) e Hr) in Hd.
    discriminate.
Qed.

(** What a returned payload is, after [createOutputs]. *)
Lemma makeSignedTx_returned (E : EcdsaLib) (fuel : nat) (self : Transaction)
    (balance payment fee : Z) (rnd : nat -> Z) (id : bytes) (vout : Z)
    (self' : Transaction) (payload : string) :
  makeSignedTx E fuel (createOutputs self balance payment fee) rnd (hexify id) vout =
    Done (Ok (self', payload)) ->
  exists digest sig,
    txDigest (createOutputs self balance payment fee) (hexify id) vout = Ok digest /\
    signTx E fuel (createOutputs self balance payment fee) rnd digest = Done (Ok sig) /\
    payload =
      hexify (wire_tx id vout (varstr sig ++ varstr (pub_key (org self)))
                payment (pub_key_hash (dest self))
                (balance - payment - fee) (pub_key_hash (org self))) /\
    unhexify payload =
      Ok (wire_tx id vout (varstr sig ++ varstr (pub_key (org self)))
            payment (pub_key_hash (dest self))
            (balance - payment - fee) (pub_key_hash (org self))) /\
    txPayload self' = Some payload /\
    outputs self' = outputs (createOutputs self balance payment fee).
Proof.
  unfold makeSignedTx.
  destruct (txDigest (createOutputs self balance payment fee) (hexify id) vout)
    as [digest|e] eqn:Hd; [|discriminate].
  destruct (signTx E fuel (createOutputs self balance payment fee) rnd digest)
    as [[sig|e]|] eqn:Hs; cbn [obind]; try discriminate.
  unfold assemble_signed. rewrite <- hexify_app.
  destruct (makeRawTx _ _ _ _) as [t|e] eqn:Hr; cbn [bind]; [|discriminate].
  intros H. injection H as <- <-.
  apply makeRawTx_bytes_inv in Hr. cbn [createOutputs org] in Hr. subst t.
  exists digest, sig. cbn [txPayload outputs].
  split; [reflexivity|]. split; [exact Hs|]. split; [reflexivity|].
  split; [apply unhexify_hexify|]. split; reflexivity.
Qed.

(** X5: after [createOutputs], a payload that [makeSignedTx] returns is
    the text of the transaction's bytes with the unlocking script
    (length, signature, length, public key), where the signature is what
    [signTx] returned for the digest; [unhexify] gives these bytes back;
    the payload is stored in [txPayload] and the outputs are kept. *)
Theorem makeSignedTx_payload_bytes (E : EcdsaLib) (fuel : nat) (self : Transaction)
    (balance payment fee : Z) (rnd : nat -> Z) (id : bytes) (vout : Z)
    (self' : Transaction) (payload : string) :
  makeSignedTx E fuel (createOutputs self balance payment fee) rnd (hexify id) vout =
    Done (Ok (self', payload)) ->
  exists digest sig,
    txDigest (createOutputs self balance payment fee) (hexify id) vout = Ok digest /\
    signTx E fuel (createOutputs self balance payment fee) rnd digest = Done (Ok sig) /\
    payload =
      hexify (wire_tx id vout (varstr sig ++ varstr (pub_key (org self)))
                payment (pub_key_hash (dest self))
                (balance - payment - fee) (pub_key_hash (org self))) /\
    unhexify payload =
      Ok (wire_tx id vout (varstr sig ++ varstr (pub_key (org self)))
            payment (pub_key_hash (dest self))
            (balance - payment - fee) (pub_key_hash (org self))) /\
    txPayload self' = Some payload /\
    outputs self' = outputs (createOutputs self balance payment fee).
Proof.
  intros H.
  destruct (makeSignedTx_returned E fuel self balance payment fee rnd id vout self'
              payload H) as (digest & sig & Hd & Hs & Hp & Hu & Ht & Ho).
  exists digest, sig. repeat split; assumption.
Qed.

(** X6: after [createOutputs], with amounts and index in range, the text
    that is hashed is the text of the bytes of the transaction whose
    unlocking script is the spender's locking script, followed by the
    bytes 01 00 00 00. *)
Theorem sigHashPreimage_bytes (self : Transaction) (balance payment fee : Z)
    (id : bytes) (vout : Z) :
  0 <= vout < 2 ^ 32 ->
  0 <= payment < 2 ^ 64 ->
  0 <= balance - payment - fee < 2 ^ 64 ->
  sigHashPreimage (createOutputs self balance payment fee) (hexify id) vout =
    Ok (hexify (wire_tx id vout (wire_script (pub_key_hash (org self)))
                  payment (pub_key_hash (dest self))
                  (balance - payment - fee) (pub_key_hash (org self))
                ++ [x01; x00; x00; x00])).
Proof.
  intros Hv Hp Hc. unfold sigHashPreimage. rewrite sighash_tag.
  cbn [createOutputs org]. rewrite makeScriptPubKey_hexify.
  rewrite makeRawTx_bytes by assumption. cbn [bind].
  now rewrite hexify_app.
Qed.

(** * Further properties of the signer *)

(** ** The signature that is verified *)

Lemma hexdigits_of_byte (n : Z) :
  hexify [byte_of_Z n] =
    String (hexdigit (n / 16 mod 16)) (String (hexdigit (n mod 16)) EmptyString).
Proof.
  cbn [hexify]. rewrite Z_of_byte_of_Z.
  replace (n mod 256 / 16) with (n / 16 mod 16) by (Z.div_mod_to_equations; lia).
  replace (n mod 256 mod 16) with (n mod 16) by (Z.div_mod_to_equations; lia).
  reflexivity.
Qed.

(** An even number of hexadecimal digits is the text of big-endian bytes. *)
Lemma hex_digits_bytes (k : nat) :
  forall n, hex_digits (2 * k) n = hexify (rev (le_bytes k n)).
Proof.
  induction k as [|k IH]; intros n; [reflexivity|].
  replace (2 * S k)%nat with (S (S (2 * k))) by lia.
  cbn [hex_digits le_bytes rev]. rewrite hexify_app, hexdigits_of_byte.
  rewrite IH. rewrite append_assoc.
  replace (n / 16 / 16) with (n / 256) by (Z.div_mod_to_equations; lia).
  reflexivity.
Qed.

Lemma fmt_064x_bytes (n : Z) :
  0 <= n < 2 ^ 256 -> fmt_064x n = hexify (rev (le_bytes 32 n)).
Proof.
  intros [H0 H1]. unfold fmt_064x.
  apply Z.ltb_ge in H0. rewrite H0. apply Z.ltb_ge in H0.
  assert (Hw : (hex_width n <= 64)%nat).
  { unfold hex_width. destruct (n =? 0) eqn:Hz; [lia|].
    apply Z.eqb_neq in Hz.
    assert (Z.log2 n < 256) by (apply Z.log2_lt_pow2; lia).
    pose proof (Z.log2_nonneg n).
    assert (Z.log2 n / 4 + 1 <= 64) by (Z.div_mod_to_equations; lia).
    lia. }
  rewrite Nat.max_l by exact Hw.
  change 64%nat with (2 * 32)%nat. apply hex_digits_bytes.
Qed.

(** X7: for [r] and [s] below 2 ^ 256, the text ['%064x%064x' % (r, s)]
    always unhexifies, to exactly 64 bytes: [r] on 32 big-endian bytes
    followed by [s] on 32 big-endian bytes. This is the signature that
    [verify_digest] receives. *)
Theorem decodedSig_is_raw_r_s (r s : Z) :
  0 <= r < 2 ^ 256 ->
  0 <= s < 2 ^ 256 ->
  unhexify (fmt_064x r +s fmt_064x s) = Ok (rev (le_bytes 32 r) ++ rev (le_bytes 32 s)) /\
  List.length (rev (le_bytes 32 r) ++ rev (le_bytes 32 s)) = 64%nat.
Proof.
  intros Hr Hs. split.
  - rewrite !fmt_064x_bytes by assumption.
    rewrite <- hexify_app. apply unhexify_hexify.
  - rewrite length_app, !length_rev, !length_le_bytes. reflexivity.
Qed.

Lemma decodedSig_is_raw_r_s_witness :
  (0 <= 255 < 2 ^ 256 /\ 0 <= 2 ^ 255 < 2 ^ 256) /\
  unhexify (fmt_064x 255 +s fmt_064x (2 ^ 255)) =
    Ok (rev (le_bytes 32 255) ++ rev (le_bytes 32 (2 ^ 255))) /\
  List.length (rev (le_bytes 32 255) ++ rev (le_bytes 32 (2 ^ 255))) = 64%nat.
Proof.
  split; [lia | apply (decodedSig_is_raw_r_s 255 (2 ^ 255)); lia].
Defined.

(** ** The loop and its bound *)

Section SignerLoop.

Variable E : EcdsaLib.
Variable self : Transaction.
Variable tx : bytes.
Variable rnd : nat -> Z.

Lemma signTx_loop_S (fuel : nat) (sk : SigningKey E) (Nby2 : pyfloat) (i : nat) :
  signTx_loop E (S fuel) self sk Nby2 tx rnd i =
    match sign_digest_der E sk (rnd i) tx with
    | Raise e => Done (Raise e)
    | Ok txSig =>
        match sigdecode_der E txSig SECP256k1_order with
        | Raise e => Done (Raise e)
        | Ok (r, s) =>
            if int_lt_float s Nby2 then
              match self_verify E self tx r s with
              | Raise e => Done (Raise e)
              | Ok _ => Done (Ok txSig)
              end
            else signTx_loop E fuel self sk Nby2 tx rnd (S i)
        end
    end.
Proof. reflexivity. Qed.

(** What the loop returns is the signature of the first attempt that is
    not discarded. *)
Lemma signTx_loop_returned_first (sk : SigningKey E) (Nby2 : pyfloat) :
  forall fuel i txSig,
    signTx_loop E fuel self sk Nby2 tx rnd i = Done (Ok txSig) ->
    exists j,
      (i <= j < i + fuel)%nat /\
      (forall j', (i <= j' < j)%nat -> retried E sk Nby2 tx (rnd j') = true) /\
      retried E sk Nby2 tx (rnd j) = false /\
      sign_digest_der E sk (rnd j) tx = Ok txSig.
Proof.
  induction fuel as [|fuel IH]; intros i txSig H; [discriminate|].
  rewrite signTx_loop_S in H.
  destruct (sign_digest_der E sk (rnd i) tx) as [sig|e] eqn:Hs; [|discriminate].
  destruct (sigdecode_der E sig SECP256k1_order) as [[r s]|e] eqn:Hd; [|discriminate].
  destruct (int_lt_float s Nby2) eqn:Hlt.
  - destruct (self_verify E self tx r s) as [u|e]; [|discriminate].
    injection H as <-. exists i.
    split; [lia|]. split; [intros j' Hj'; lia|].
    split; [|exact Hs]. unfold retried. now rewrite Hs, Hd, Hlt.
  - apply IH in H. destruct H as (j & Hj & Hpre & Hnot & Hsig).
    exists j. split; [lia|]. split; [|split; assumption].
    intros j' Hj'. destruct (Nat.eq_dec j' i) as [->|Hne].
    + unfold retried. now rewrite Hs, Hd, Hlt.
    + apply Hpre. lia.
Qed.

End SignerLoop.

(** X9: a signature that [signTx] returns is the one of the first attempt
    that is not discarded, with the byte 01 appended: every earlier
    attempt was discarded, and the number of nonces drawn is the index of
    that attempt plus one. *)
Theorem signTx_returns_first_kept (E : EcdsaLib) (self : Transaction) (rnd : nat -> Z)
    (tx : bytes) (fuel : nat) (sig : bytes) :
  signTx E fuel self rnd tx = Done (Ok sig) ->
  exists (sk : SigningKey E) (j : nat) (txSig : bytes),
    SigningKey_from_string E (priv_key (org self)) = Ok sk /\
    (j < fuel)%nat /\
    (forall j', (j' < j)%nat -> retried E sk two_255 tx (rnd j') = true) /\
    retried E sk two_255 tx (rnd j) = false /\
    sign_digest_der E sk (rnd j) tx = Ok txSig /\
    sig = (txSig ++ [x01])%list.
Proof.
  unfold signTx.
  destruct (SigningKey_from_string E (priv_key (org self))) as [sk|e]; [|discriminate].
  rewrite Nby2_is_2_255.
  destruct (signTx_loop E fuel self sk two_255 tx rnd 0) as [[txSig|e]|] eqn:Hl;
    cbn [obind]; try discriminate.
  intros H. injection H as <-.
  apply signTx_loop_returned_first in Hl.
  destruct Hl as (j & Hj & Hpre & Hnot & Hs).
  exists sk, j, txSig. split; [reflexivity|]. split; [lia|].
  split; [intros j' Hj'; apply Hpre; lia|].
  split; [exact Hnot|]. split; [exact Hs | reflexivity].
Qed.

(** X10: the loop retries only on a high [s]. An exception of the
    library is never swallowed: a key that does not parse makes [signTx]
    raise before the loop, and an exception of [sign_digest] or of
    [sigdecode_der] at the first attempt that is not discarded is raised
    by [signTx]. *)
Theorem signTx_library_exceptions (E : EcdsaLib) (self : Transaction) (rnd : nat -> Z)
    (tx : bytes) (fuel : nat) (e : exn) :
  (SigningKey_from_string E (priv_key (org self)) = Raise e ->
   signTx E fuel self rnd tx = Done (Raise e)) /\
  (forall (sk : SigningKey E) (i : nat),
      SigningKey_from_string E (priv_key (org self)) = Ok sk ->
      (forall j, (j < i)%nat -> retried E sk two_255 tx (rnd j) = true) ->
      (i < fuel)%nat ->
      (sign_digest_der E sk (rnd i) tx = Raise e \/
       exists txSig, sign_digest_der E sk (rnd i) tx = Ok txSig /\
                     sigdecode_der E txSig SECP256k1_order = Raise e) ->
      signTx E fuel self rnd tx = Done (Raise e)).
Proof.
  split.
  - intros H. unfold signTx. now rewrite H.
  - intros sk i Hk Hr Hf Hraise. rewrite (signTx_unfold E self tx rnd fuel sk Hk).
    replace fuel with (i + S (fuel - i - 1))%nat by lia.
    rewrite signTx_loop_skips by (intros j Hj; apply Hr; lia).
    rewrite signTx_loop_S. cbn [Nat.add].
    destruct Hraise as [Hs|(txSig & Hs & Hd)].
    + now rewrite Hs.
    + now rewrite Hs, Hd.
Qed.

(** * Properties of the broadcaster *)

(** ** The envelope *)

Lemma pad_to_aligned (align : nat) (b : bytes) (k : nat) :
  (0 < align)%nat -> List.length b = (k * align)%nat -> pad_to align b = b.
Proof.
  intros Ha Hl. unfold pad_to. rewrite Hl, Nat.Div0.mod_mul, Nat.sub_0_r.
  rewrite Nat.Div0.mod_same. cbn [repeat]. apply app_nil_r.
Qed.

(** X11: with an 8-byte native [long], [makeMessage] never fails for a
    payload shorter than 2 ^ 64 bytes, and the message is: the magic
    value on 8 little-endian bytes, the command cut or null-padded to 12
    bytes, 4 padding bytes, the payload length on 8 little-endian bytes,
    the 4-byte checksum field, and the payload unchanged: a header of 36
    bytes. *)
Theorem makeMessage_layout_long8 (command : string) (payload : bytes) :
  Z.of_nat (List.length payload) < 2 ^ 64 ->
  exists field : bytes,
    List.length field = 4%nat /\
    makeMessage {| sizeof_long := 8 |} command payload =
      Ok (le_bytes 8 MAGIC_BYTES ++ pack_s 12 (encode_utf8 command)
            ++ [x00; x00; x00; x00]
            ++ le_bytes 8 (Z.of_nat (List.length payload))
            ++ field ++ payload) /\
    List.length
      (le_bytes 8 MAGIC_BYTES ++ pack_s 12 (encode_utf8 command)
         ++ [x00; x00; x00; x00]
         ++ le_bytes 8 (Z.of_nat (List.length payload))
         ++ field ++ payload) = (36 + List.length payload)%nat.
Proof.
  intros H.
  exists (pack_s 4 (encode_utf8 (hexify (rev (firstn 4 (sha256 (sha256 payload))))))).
  split; [apply length_pack_s|]. split.
  - unfold makeMessage. rewrite toLittleEndian_hexify. cbn [bind].
    unfold struct_pack_L12sL4s. cbn [sizeof_long].
    rewrite (struct_pack_le_ok 8 MAGIC_BYTES) by (vm_compute; split; congruence).
    rewrite (struct_pack_le_ok 8 (Z.of_nat (List.length payload)))
      by (split; [lia | exact H]).
    cbn [bind]. unfold pad_to.
    rewrite length_app, length_le_bytes, length_pack_s.
    change ((8 - (8 + 12) mod 8) mod 8)%nat with 4%nat. cbn [repeat].
    now rewrite <- !app_assoc.
  - rewrite !length_app, !length_le_bytes, !length_pack_s. cbn [List.length]. lia.
Qed.

Lemma makeMessage_layout_long8_witness :
  Z.of_nat (List.length [x61; x62]) < 2 ^ 64 /\
  exists field : bytes,
    List.length field = 4%nat /\
    makeMessage {| sizeof_long := 8 |} "tx" [x61; x62] =
      Ok (le_bytes 8 MAGIC_BYTES ++ pack_s 12 (encode_utf8 "tx")
            ++ [x00; x00; x00; x00]
            ++ le_bytes 8 (Z.of_nat (List.length [x61; x62]))
            ++ field ++ [x61; x62]) /\
    List.length
      (le_bytes 8 MAGIC_BYTES ++ pack_s 12 (encode_utf8 "tx")
         ++ [x00; x00; x00; x00]
         ++ le_bytes 8 (Z.of_nat (List.length [x61; x62]))
         ++ field ++ [x61; x62]) = (36 + List.length [x61; x62])%nat.
Proof.
  split; [vm_compute; reflexivity|].
  apply (makeMessage_layout_long8 "tx" [x61; x62]). vm_compute. reflexivity.
Defined.

(** X12: with a 4-byte native [long] the header has 24 bytes and no
    padding: magic on 4 bytes, command on 12, length on 4, checksum field
    on 4, then the payload. *)
Theorem makeMessage_layout_long4 (command : string) (payload : bytes) :
  Z.of_nat (List.length payload) < 2 ^ 32 ->
  exists field : bytes,
    List.length field = 4%nat /\
    makeMessage {| sizeof_long := 4 |} command payload =
      Ok (le_bytes 4 MAGIC_BYTES ++ pack_s 12 (encode_utf8 command)
            ++ le_bytes 4 (Z.of_nat (List.length payload))
            ++ field ++ payload) /\
    List.length
      (le_bytes 4 MAGIC_BYTES ++ pack_s 12 (encode_utf8 command)
         ++ le_bytes 4 (Z.of_nat (List.length payload))
         ++ field ++ payload) = (24 + List.length payload)%nat.
Proof.
  intros H.
  exists (pack_s 4 (encode_utf8 (hexify (rev (firstn 4 (sha256 (sha256 payload))))))).
  split; [apply length_pack_s|]. split.
  - unfold makeMessage. rewrite toLittleEndian_hexify. cbn [bind].
    unfold struct_pack_L12sL4s. cbn [sizeof_long].
    rewrite (struct_pack_le_ok 4 MAGIC_BYTES) by (vm_compute; split; congruence).
    rewrite (struct_pack_le_ok 4 (Z.of_nat (List.length payload)))
      by (split; [lia | exact H]).
    cbn [bind]. unfold pad_to.
    rewrite length_app, length_le_bytes, length_pack_s.
    change ((4 - (4 + 12) mod 4) mod 4)%nat with 0%nat. cbn [repeat].
    rewrite app_nil_r. now rewrite <- !app_assoc.
  - rewrite !length_app, !length_le_bytes, !length_pack_s. lia.
Qed.

Lemma makeMessage_layout_long4_witness :
  Z.of_nat (List.length [x61; x62]) < 2 ^ 32 /\
  exists field : bytes,
    List.length field = 4%nat /\
    makeMessage {| sizeof_long := 4 |} "tx" [x61; x62] =
      Ok (le_bytes 4 MAGIC_BYTES ++ pack_s 12 (encode_utf8 "tx")
            ++ le_bytes 4 (Z.of_nat (List.length [x61; x62]))
            ++ field ++ [x61; x62]) /\
    List.length
      (le_bytes 4 MAGIC_BYTES ++ pack_s 12 (encode_utf8 "tx")
         ++ le_bytes 4 (Z.of_nat (List.length [x61; x62]))
         ++ field ++ [x61; x62]) = (24 + List.length [x61; x62])%nat.
Proof.
  split; [vm_compute; reflexivity|].
  apply (makeMessage_layout_long4 "tx" [x61; x62]). vm_compute. reflexivity.
Defined.

Lemma firstn_app_long {A : Type} (n : nat) (a b c : list A) :
  (n <= List.length a)%nat -> firstn n (a ++ b) = firstn n (a ++ c).
Proof.
  intros H. rewrite !firstn_app.
  replace (n - List.length a)%nat with 0%nat by lia. reflexivity.
Qed.

(** A fixed-width field keeps only the first bytes of its argument. *)
Lemma pack_s_firstn (n : nat) (b : bytes) : pack_s n b = pack_s n (firstn n b).
Proof.
  unfold pack_s.
  destruct (Nat.le_gt_cases n (List.length b)) as [H|H].
  - rewrite <- (firstn_skipn n b) at 1. rewrite <- app_assoc.
    apply firstn_app_long. rewrite length_firstn. lia.
  - now rewrite (firstn_all2 b) by lia.
Qed.

(** X13: the command field is cut at 12 bytes without an error: two
    commands whose encodings agree on their first 12 bytes give the same
    message. *)
Theorem makeMessage_command_cut (pl : platform) (c1 c2 : string) (payload : bytes) :
  firstn 12 (encode_utf8 c1) = firstn 12 (encode_utf8 c2) ->
  makeMessage pl c1 payload = makeMessage pl c2 payload.
Proof.
  intros H. unfold makeMessage, struct_pack_L12sL4s.
  rewrite (pack_s_firstn 12 (encode_utf8 c1)), H, <- pack_s_firstn. reflexivity.
Qed.

Lemma makeMessage_command_cut_witness :
  firstn 12 (encode_utf8 "getblocktxn!") = firstn 12 (encode_utf8 "getblocktxn!?") /\
  makeMessage {| sizeof_long := 8 |} "getblocktxn!" [] =
    makeMessage {| sizeof_long := 8 |} "getblocktxn!?" [].
Proof.
  split; [reflexivity|].
  apply (makeMessage_command_cut {| sizeof_long := 8 |} "getblocktxn!" "getblocktxn!?" []).
  reflexivity.
Defined.

(** ** The version message *)

(** X14: for a time and a nonce that fit 8 unsigned bytes,
    [getVersionMsg] is [makeMessage "version"] of a payload of exactly 85
    bytes, whatever [netaddr] returned: version 70001 on 4 bytes,
    services 1 on 8, the time on 8, the two addresses cut or padded to
    26 bytes each, the nonce on 8, one null byte, the height 0 on 4. *)
Theorem getVersionMsg_payload (pl : platform) (now nonce : Z) (local : bytes) :
  0 <= now < 2 ^ 64 ->
  0 <= nonce < 2 ^ 64 ->
  exists payload : bytes,
    payload =
      (le_bytes 4 70001 ++ le_bytes 8 1 ++ le_bytes 8 now
         ++ pack_s 26 local ++ pack_s 26 local
         ++ le_bytes 8 nonce ++ [x00] ++ le_bytes 4 0)%list /\
    List.length payload = 85%nat /\
    getVersionMsg pl now nonce local = makeMessage pl "version" payload.
Proof.
  intros Hn Hr. eexists. split; [reflexivity|]. split.
  - rewrite !length_app, !length_le_bytes, !length_pack_s. reflexivity.
  - unfold getVersionMsg, struct_pack_version.
    rewrite (struct_pack_le_ok 4 PROTOCOL_VERSION) by (vm_compute; split; congruence).
    rewrite (struct_pack_le_ok 8 1) by (vm_compute; split; congruence).
    rewrite (struct_pack_le_ok 8 now) by exact Hn.
    rewrite (struct_pack_le_ok 8 nonce) by exact Hr.
    rewrite (struct_pack_le_ok 4 0) by (vm_compute; split; congruence).
    reflexivity.
Qed.

Lemma getVersionMsg_payload_witness :
  (0 <= 1700000000 < 2 ^ 64 /\ 0 <= 42 < 2 ^ 64) /\
  exists payload : bytes,
    payload =
      (le_bytes 4 70001 ++ le_bytes 8 1 ++ le_bytes 8 1700000000
         ++ pack_s 26 [x7f; x00; x00; x01] ++ pack_s 26 [x7f; x00; x00; x01]
         ++ le_bytes 8 42 ++ [x00] ++ le_bytes 4 0)%list /\
    List.length payload = 85%nat /\
    getVersionMsg {| sizeof_long := 8 |} 1700000000 42 [x7f; x00; x00; x01] =
      makeMessage {| sizeof_long := 8 |} "version" payload.
Proof.
  split; [lia|].
  apply (getVersionMsg_payload {| sizeof_long := 8 |} 1700000000 42 [x7f; x00; x00; x01]);
    lia.
Defined.

(** ** [send] *)

Section SendProperties.

Variable pl : platform.
Variable w : world.
Variable self : Transaction.

(** The events of one pass: one [connect], to the fixed address, for the
    peer of the pass; the version message of the pass; a "tx" message of
    the stored payload. *)
Lemma send_pass_events (a : nat) (peer : string) (ev : event) :
  In ev (fst (send_pass pl w self a peer)) ->
  ev = Connect peer "222.237.76.118" 8333 \/
  (exists m, ev = Sent m /\
             getVersionMsg pl (clock w a) (getrandbits w a) (netaddr_local w) = Ok m) \/
  (exists t raw m, ev = Sent m /\ txPayload self = Some t /\ unhexify t = Ok raw /\
                   makeMessage pl "tx" raw = Ok m).
Proof.
  unfold send_pass.
  destruct (net w a 0); cbn [sock_call fst snd app]; [|contradiction..].
  destruct (net w a 1); cbn [sock_call fst snd app];
    [|intros [<-|[]]; auto..].
  destruct (getVersionMsg pl (clock w a) (getrandbits w a) (netaddr_local w))
    as [version|e] eqn:Hv; cbn [pure_call fst snd app];
    [|intros [<-|[]]; auto].
  destruct (net w a 2); cbn [sock_call fst snd app];
    [|intros [<-|[<-|[]]]; eauto..].
  destruct (net w a 3); cbn [sock_call fst snd app];
    [|intros [<-|[<-|[]]]; eauto..].
  destruct (net w a 4); cbn [sock_call fst snd app];
    [|intros [<-|[<-|[]]]; eauto..].
  destruct (txPayload self) as [t|]; cbn [bind pure_call fst snd app];
    [|intros [<-|[<-|[]]]; eauto].
  destruct (unhexify t) as [raw|e] eqn:Hu; cbn [bind pure_call fst snd app];
    [|intros [<-|[<-|[]]]; eauto].
  destruct (makeMessage pl "tx" raw) as [m|e] eqn:Hm; cbn [pure_call fst snd app];
    [|intros [<-|[<-|[]]]; eauto].
  destruct (net w a 5); cbn [sock_call fst snd app];
    [destruct (net w a 6); cbn [sock_call fst snd app]|..];
    (intros [<-|[<-|[<-|[]]]]; [auto | eauto | right; right; eauto 8]).
Qed.

Lemma send_loop_events :
  forall (peers : list string) (a : nat) (ev : event),
    In ev (fst (send_loop pl w self peers a)) ->
    (exists peer, In peer peers /\ ev = Connect peer "222.237.76.118" 8333) \/
    (exists a' m, ev = Sent m /\
       getVersionMsg pl (clock w a') (getrandbits w a') (netaddr_local w) = Ok m) \/
    (exists t raw m, ev = Sent m /\ txPayload self = Some t /\ unhexify t = Ok raw /\
                     makeMessage pl "tx" raw = Ok m).
Proof.
  induction peers as [|peer rest IH]; intros a ev; cbn [send_loop].
  - contradiction.
  - pose proof (send_pass_events a peer ev) as Hp.
    destruct (send_pass pl w self a peer) as [evs [| |e]]; cbn [fst] in *.
    + intros H. destruct (Hp H) as [->|[(m & -> & Hm)|Ht]].
      * left. exists peer. split; [now left | reflexivity].
      * right. left. eauto.
      * right. right. exact Ht.
    + specialize (IH (S a) ev).
      destruct (send_loop pl w self rest (S a)) as [evs' r]. cbn [fst] in *.
      intros H. apply in_app_or in H. destruct H as [H|H].
      * destruct (Hp H) as [->|[(m & -> & Hm)|Ht]].
        -- left. exists peer. split; [now left | reflexivity].
        -- right. left. eauto.
        -- right. right. exact Ht.
      * destruct (IH H) as [(p & Hin & ->)|Hrest].
        -- left. exists p. split; [now right | reflexivity].
        -- right. exact Hrest.
    + intros H. destruct (Hp H) as [->|[(m & -> & Hm)|Ht]].
      * left. exists peer. split; [now left | reflexivity].
      * right. left. eauto.
      * right. right. exact Ht.
Qed.

End SendProperties.

(** X15: every connection that [send] opens goes to the fixed address
    222.237.76.118, port 8333; the resolved peer is only printed. *)
Theorem send_connects_to_fixed_address (pl : platform) (w : world) (self : Transaction)
    (resolved : result (list string)) (printed address : string) (port : Z) :
  In (Connect printed address port) (fst (send pl w self resolved)) ->
  address = "222.237.76.118"%string /\ port = 8333 /\
  exists peers, resolved = Ok peers /\ In printed peers.
Proof.
  unfold send. destruct resolved as [peers|e]; cbn [fst]; [|contradiction].
  intros H. apply send_loop_events in H.
  destruct H as [(peer & Hin & Heq)|[(a' & m & Heq & _)|(t & raw & m & Heq & _)]];
    try discriminate.
  injection Heq as -> -> ->. split; [reflexivity|]. split; [reflexivity|].
  exists peers. split; [reflexivity | exact Hin].
Qed.

(** X16: when the stored payload was never set, [send] sends no "tx"
    message: everything it sends is a version message. *)
Theorem send_without_payload_sends_only_version (pl : platform) (w : world)
    (self : Transaction) (resolved : result (list string)) (m : bytes) :
  txPayload self = None ->
  In (Sent m) (fst (send pl w self resolved)) ->
  exists a, getVersionMsg pl (clock w a) (getrandbits w a) (netaddr_local w) = Ok m.
Proof.
  intros Hn. unfold send. destruct resolved as [peers|e]; cbn [fst]; [|contradiction].
  intros H. apply send_loop_events in H.
  destruct H as [(peer & _ & Heq)|[(a' & m' & Heq & Hv)|(t & raw & m' & _ & Ht & _)]].
  - discriminate.
  - injection Heq as ->. eauto.
  - congruence.
Qed.

(** A pass whose connection is refused or reset. *)
Lemma send_pass_refused (pl : platform) (w : world) (self : Transaction) (a : nat)
    (peer : string) :
  net w a 0 = SockOk -> net w a 1 = SockCaught ->
  send_pass pl w self a peer = ([Connect peer "222.237.76.118" 8333], Continued).
Proof. intros H0 H1. unfold send_pass. now rewrite H0, H1. Qed.

Lemma send_loop_all_refused (pl : platform) (w : world) (self : Transaction) :
  (forall a, net w a 0 = SockOk) ->
  (forall a, net w a 1 = SockCaught) ->
  forall peers a,
    send_loop pl w self peers a =
      (map (fun peer => Connect peer "222.237.76.118" 8333) peers, Ok tt).
Proof.
  intros H0 H1. induction peers as [|peer rest IH]; intros a; [reflexivity|].
  cbn [send_loop map]. rewrite send_pass_refused by auto. now rewrite IH.
Qed.

(** X17: when every connection is refused or reset, [send] tries each
    resolved peer once, sends nothing, and returns normally: the caller
    is not told that nothing was broadcast. *)
Theorem send_fails_silently (pl : platform) (w : world) (self : Transaction)
    (peers : list string) :
  (forall a, net w a 0 = SockOk) ->
  (forall a, net w a 1 = SockCaught) ->
  send pl w self (Ok peers) =
    (map (fun peer => Connect peer "222.237.76.118" 8333) peers, Ok tt).
Proof. intros H0 H1. apply send_loop_all_refused; assumption. Qed.

Lemma send_fails_silently_witness :
  ((forall a, net refusing a 0 = SockOk) /\ (forall a, net refusing a 1 = SockCaught)) /\
  send {| sizeof_long := 8 |} refusing tx0 (Ok ["10.0.0.1"; "10.0.0.2"]%string) =
    (map (fun peer => Connect peer "222.237.76.118" 8333)
       ["10.0.0.1"; "10.0.0.2"]%string, Ok tt).
Proof.
  split; [split; reflexivity|].
  apply (send_fails_silently {| sizeof_long := 8 |} refusing tx0
           ["10.0.0.1"; "10.0.0.2"]%string); reflexivity.
Defined.

(** A pass in which every socket call succeeds. *)
Lemma send_pass_all_ok (pl : platform) (w : world) (self : Transaction) (a : nat)
    (peer : string) (version : bytes) :
  (forall k, net w a k = SockOk) ->
  getVersionMsg pl (clock w a) (getrandbits w a) (netaddr_local w) = Ok version ->
  send_pass pl w self a peer =
    match (let* payload :=
             match txPayload self with
             | Some t => Ok t
             | None => Raise AttributeError
             end in
           let* raw := unhexify payload in
           makeMessage pl "tx" raw) with
    | Ok msg => ([Connect peer "222.237.76.118" 8333; Sent version; Sent msg], Returned)
    | Raise e => ([Connect peer "222.237.76.118" 8333; Sent version], Raised e)
    end.
Proof.
  intros Hk Hv. unfold send_pass. rewrite !Hk, Hv.
  cbn [sock_call pure_call fst snd app].
  destruct (let* payload := _ in let* raw := unhexify payload in makeMessage pl "tx" raw);
    reflexivity.
Qed.

(** X18: [send] before [makeSignedTx]: when the first connection goes
    through and the payload was never stored, [send] raises
    [AttributeError], after the version message has been sent. *)
Theorem send_before_signing_raises (pl : platform) (w : world) (self : Transaction)
    (peer : string) (rest : list string) (version : bytes) :
  txPayload self = None ->
  (forall k, net w 0%nat k = SockOk) ->
  getVersionMsg pl (clock w 0%nat) (getrandbits w 0%nat) (netaddr_local w) = Ok version ->
  send pl w self (Ok (peer :: rest)) =
    ([Connect peer "222.237.76.118" 8333; Sent version], Raise AttributeError).
Proof.
  intros Hn Hk Hv. unfold send. cbn [send_loop].
  rewrite (send_pass_all_ok pl w self 0 peer version Hk Hv), Hn. reflexivity.
Qed.

(** X19: [send] after [makeSignedTx]: the payload that [makeSignedTx]
    returned (outputs from [createOutputs]) is the text of the bytes of
    the signed transaction, whose signature is the one [signTx] returned
    for the digest; with the transaction state it returned, when the
    first connection goes through, [send] sends the version message and
    then the "tx" envelope of exactly these bytes, returns, and leaves
    the other peers alone. *)
Theorem send_after_signing (E : EcdsaLib) (fuel : nat) (self self' : Transaction)
    (balance payment fee : Z) (rnd : nat -> Z) (id : bytes) (vout : Z)
    (payload : string) (pl : platform) (w : world) (peer : string)
    (rest : list string) (version : bytes) :
  makeSignedTx E fuel (createOutputs self balance payment fee) rnd (hexify id) vout =
    Done (Ok (self', payload)) ->
  (forall k, net w 0%nat k = SockOk) ->
  getVersionMsg pl (clock w 0%nat) (getrandbits w 0%nat) (netaddr_local w) = Ok version ->
  exists (digest sig raw : bytes),
    txDigest (createOutputs self balance payment fee) (hexify id) vout = Ok digest /\
    signTx E fuel (createOutputs self balance payment fee) rnd digest = Done (Ok sig) /\
    raw = wire_tx id vout (varstr sig ++ varstr (pub_key (org self)))
            payment (pub_key_hash (dest self))
            (balance - payment - fee) (pub_key_hash (org self)) /\
    payload = hexify raw /\
    txPayload self' = Some payload /\
    send pl w self' (Ok (peer :: rest)) =
      match makeMessage pl "tx" raw with
      | Ok msg => ([Connect peer "222.237.76.118" 8333; Sent version; Sent msg], Ok tt)
      | Raise e => ([Connect peer "222.237.76.118" 8333; Sent version], Raise e)
      end.
Proof.
  intros Hm Hk Hv.
  apply makeSignedTx_returned in Hm.
  destruct Hm as (digest & sig & Hd & Hs & Hp & Hu & Ht & _).
  exists digest, sig. eexists.
  split; [exact Hd|]. split; [exact Hs|]. split; [reflexivity|].
  split; [exact Hp|]. split; [exact Ht|].
  unfold send. cbn [send_loop].
  rewrite (send_pass_all_ok pl w self' 0 peer version Hk Hv), Ht.
  cbn [bind]. rewrite Hu. cbn [bind].
  destruct (makeMessage pl "tx" _); reflexivity.
Qed.

(** ** When the assembly succeeds *)

Lemma makeRawTx_ok_ranges (self : Transaction) (balance payment fee : Z)
    (id : bytes) (script t : string) (vout : Z) :
  makeRawTx (createOutputs self balance payment fee) (hexify id) vout script = Ok t ->
  0 <= vout < 2 ^ 32 /\ 0 <= payment < 2 ^ 64 /\ 0 <= balance - payment - fee < 2 ^ 64.
Proof.
  rewrite makeRawTx_fields, toLittleEndian_hexify. cbn [bind].
  destruct (toLittleEndian (IntArg vout)) as [ix|e] eqn:Hx; [|discriminate].
  apply toLittleEndian_index_inv in Hx.
  cbn [bind createOutputs outputs dest org join_map].
  destruct (makeOutput (payment, _)) as [o1|e] eqn:H1; [|discriminate].
  destruct (makeOutput (balance - payment - fee, _)) as [o2|e] eqn:H2; [|discriminate].
  apply makeOutput_inv in H1. apply makeOutput_inv in H2. tauto.
Qed.

(** X21: after [createOutputs], for an id given as the text of its
    bytes, [makeRawTx] succeeds exactly when the index fits 4 unsigned
    bytes and the payment and the change each fit 8 unsigned bytes;
    nothing else can make it fail, and no value is wrapped. *)
Theorem makeRawTx_succeeds_iff (self : Transaction) (balance payment fee : Z)
    (id script : bytes) (vout : Z) :
  (exists t,
      makeRawTx (createOutputs self balance payment fee) (hexify id) vout (hexify script)
        = Ok t) <->
  (0 <= vout < 2 ^ 32 /\ 0 <= payment < 2 ^ 64 /\ 0 <= balance - payment - fee < 2 ^ 64).
Proof.
  split.
  - intros [t H]. exact (makeRawTx_ok_ranges _ _ _ _ _ _ _ _ H).
  - intros (Hv & Hp & Hc). eexists. apply makeRawTx_bytes; assumption.
Qed.

(** ** The bound that the loop enforces *)

(** X22: every signature that [signTx] returns decodes to an [s] below
    2 ^ 255: this is the bound that the test [s < Nby2] enforces. *)
Theorem signTx_returned_s_bound (E : EcdsaLib) (self : Transaction) (rnd : nat -> Z)
    (tx : bytes) (fuel : nat) (sig : bytes) :
  signTx E fuel self rnd tx = Done (Ok sig) ->
  exists txSig r s,
    sig = (txSig ++ [x01])%list /\
    sigdecode_der E txSig SECP256k1_order = Ok (r, s) /\
    s < 2 ^ 255.
Proof.
  intros H. apply signTx_returned in H.
  destruct H as (sk & txSig & r & s & _ & Hsig & Hd & Hlt & _).
  exists txSig, r, s. repeat split; assumption.
Qed.

Lemma signTx_returned_s_bound_witness :
  exists sig,
    signTx Secp256k1.lib 5 tx0 counting_nonce digest_empty = Done (Ok sig) /\
    exists txSig r s,
      sig = (txSig ++ [x01])%list /\
      sigdecode_der Secp256k1.lib txSig SECP256k1_order = Ok (r, s) /\
      s < 2 ^ 255.
Proof.
  eexists. split; [vm_compute; reflexivity|].
  apply (signTx_returned_s_bound Secp256k1.lib tx0 counting_nonce digest_empty 5).
  vm_compute. reflexivity.
Defined.

(** ** The digest *)

Lemma round_length (st : list Z) (kw : Z * Z) :
  List.length st = 8%nat -> List.length (SHA256.round st kw) = 8%nat.
Proof.
  destruct st as [|a [|b [|c [|d [|e [|f [|g [|h [|i st]]]]]]]]]; try discriminate.
  reflexivity.
Qed.

Lemma rounds_length (kws : list (Z * Z)) :
  forall st, List.length st = 8%nat ->
    List.length (fold_left SHA256.round kws st) = 8%nat.
Proof.
  induction kws as [|kw kws IH]; intros st H; [exact H|].
  cbn [fold_left]. apply IH. now apply round_length.
Qed.

Lemma compress_length (h : list Z) (block : bytes) :
  List.length h = 8%nat -> List.length (SHA256.compress h block) = 8%nat.
Proof.
  intros H. unfold SHA256.compress.
  rewrite length_map, length_combine, rounds_length by exact H. lia.
Qed.

Lemma sha256_length (msg : bytes) : List.length (sha256 msg) = 32%nat.
Proof.
  unfold sha256, SHA256.digest.
  assert (H : forall bl h, List.length h = 8%nat ->
                List.length (fold_left SHA256.compress bl h) = 8%nat).
  { induction bl as [|b bl IH]; intros h Hh; [exact Hh|].
    cbn [fold_left]. apply IH. now apply compress_length. }
  specialize (H (SHA256.blocks (List.length (SHA256.pad msg) / 64) (SHA256.pad msg))
                SHA256.H0 eq_refl).
  destruct (fold_left SHA256.compress _ SHA256.H0)
    as [|a [|b [|c [|d [|e [|f [|g [|h [|i st]]]]]]]]]; try discriminate.
  cbn [flat_map]. rewrite !length_app. unfold SHA256.be_bytes.
  rewrite !length_rev, !length_le_bytes. reflexivity.
Qed.

(** X20: whenever the digest is computed it has exactly 32 bytes, the
    size of a digest that [sign_digest] accepts without truncation. *)
Theorem txDigest_length (self : Transaction) (txid : string) (vout : Z) (digest : bytes) :
  txDigest self txid vout = Ok digest -> List.length digest = 32%nat.
Proof.
  unfold txDigest. destruct (sigHashPreimage self txid vout); [|discriminate].
  cbn [bind]. intros H. injection H as <-. apply sha256_length.
Qed.

(** ** The properties on the scenario *)

Lemma txDigest_length_witness :
  txDigest scenario main_txid 1 = Ok scenario_digest /\
  List.length scenario_digest = 32%nat.
Proof.
  split; [vm_compute; reflexivity|].
  apply (txDigest_length scenario main_txid 1). vm_compute. reflexivity.
Defined.

Lemma makeSignedTx_follows_signTx_witness :
  txDigest scenario (hexify main_id) 1 = Ok scenario_digest /\
  exists sig payload,
    signTx Secp256k1.lib 5 scenario counting_nonce scenario_digest = Done (Ok sig) /\
    makeRawTx scenario (hexify main_id) 1
      (hexify (varstr sig ++ varstr (pub_key (org scenario)))) = Ok payload /\
    makeSignedTx Secp256k1.lib 5 scenario counting_nonce (hexify main_id) 1 =
      Done (Ok ({| org := org scenario; dest := dest scenario;
                   outputs := outputs scenario; txPayload := Some payload |}, payload)).
Proof.
  split; [vm_compute; reflexivity|].
  eexists.
  assert (Hs : signTx Secp256k1.lib 5 scenario counting_nonce scenario_digest = Done (Ok _))
    by (vm_compute; reflexivity).
  destruct (proj1 (makeSignedTx_follows_signTx Secp256k1.lib 5 scenario counting_nonce
                     (hexify main_id) 1 scenario_digest
                     ltac:(vm_compute; reflexivity)) _ Hs) as (payload & Hr & Hm).
  exists payload. split; [exact Hs|]. split; [exact Hr | exact Hm].
Defined.

Lemma makeSignedTx_payload_bytes_witness :
  exists self' payload,
    makeSignedTx Secp256k1.lib 5 (createOutputs tx0 10000 1000 1000) counting_nonce
      (hexify main_id) 1 = Done (Ok (self', payload)) /\
    exists digest sig,
      txDigest (createOutputs tx0 10000 1000 1000) (hexify main_id) 1 = Ok digest /\
      signTx Secp256k1.lib 5 (createOutputs tx0 10000 1000 1000) counting_nonce digest =
        Done (Ok sig) /\
      payload =
        hexify (wire_tx main_id 1 (varstr sig ++ varstr (pub_key (org tx0)))
                  1000 (pub_key_hash (dest tx0))
                  (10000 - 1000 - 1000) (pub_key_hash (org tx0))) /\
      unhexify payload =
        Ok (wire_tx main_id 1 (varstr sig ++ varstr (pub_key (org tx0)))
              1000 (pub_key_hash (dest tx0))
              (10000 - 1000 - 1000) (pub_key_hash (org tx0))) /\
      txPayload self' = Some payload /\
      outputs self' = outputs (createOutputs tx0 10000 1000 1000).
Proof.
  eexists. eexists. split; [vm_compute; reflexivity|].
  apply (makeSignedTx_payload_bytes Secp256k1.lib 5 tx0 10000 1000 1000 counting_nonce
           main_id 1).
  vm_compute. reflexivity.
Defined.

Lemma sigHashPreimage_bytes_witness :
  (0 <= 1 < 2 ^ 32 /\ 0 <= 1000 < 2 ^ 64 /\ 0 <= 10000 - 1000 - 1000 < 2 ^ 64) /\
  sigHashPreimage (createOutputs tx0 10000 1000 1000) (hexify main_id) 1 =
    Ok (hexify (wire_tx main_id 1 (wire_script (pub_key_hash (org tx0)))
                  1000 (pub_key_hash (dest tx0))
                  (10000 - 1000 - 1000) (pub_key_hash (org tx0))
                ++ [x01; x00; x00; x00])).
Proof.
  split; [lia|].
  apply (sigHashPreimage_bytes tx0 10000 1000 1000 main_id 1); lia.
Defined.

Lemma signTx_returns_first_kept_witness :
  exists sig,
    signTx Secp256k1.lib 5 tx0 counting_nonce digest_empty = Done (Ok sig) /\
    exists (sk : SigningKey Secp256k1.lib) (j : nat) (txSig : bytes),
      SigningKey_from_string Secp256k1.lib (priv_key (org tx0)) = Ok sk /\
      (j < 5)%nat /\
      (forall j', (j' < j)%nat ->
         retried Secp256k1.lib sk two_255 digest_empty (counting_nonce j') = true) /\
      retried Secp256k1.lib sk two_255 digest_empty (counting_nonce j) = false /\
      sign_digest_der Secp256k1.lib sk (counting_nonce j) digest_empty = Ok txSig /\
      sig = (txSig ++ [x01])%list.
Proof.
  eexists. split; [vm_compute; reflexivity|].
  apply (signTx_returns_first_kept Secp256k1.lib tx0 counting_nonce digest_empty 5).
  vm_compute. reflexivity.
Defined.

(** A private key that does not parse, and a digest of 33 bytes. *)
Lemma signTx_library_exceptions_witness :
  signTx Secp256k1.lib 5 (Transaction_init keyless recipient) counting_nonce digest_empty =
    Done (Raise (LibraryError "MalformedPointError")) /\
  signTx Secp256k1.lib 5 tx0 counting_nonce (repeat x00 33) =
    Done (Raise (LibraryError "BadDigestError")).
Proof.
  split.
  - apply (proj1 (signTx_library_exceptions Secp256k1.lib
                    (Transaction_init keyless recipient) counting_nonce digest_empty 5
                    (LibraryError "MalformedPointError"))).
    vm_compute. reflexivity.
  - apply (proj2 (signTx_library_exceptions Secp256k1.lib tx0 counting_nonce
                    (repeat x00 33) 5 (LibraryError "BadDigestError")) 3301 0%nat).
    + vm_compute. reflexivity.
    + intros j Hj. lia.
    + lia.
    + left. vm_compute. reflexivity.
Defined.

Lemma send_connects_to_fixed_address_witness :
  In (Connect "10.0.0.2" "222.237.76.118" 8333)
    (fst (send {| sizeof_long := 8 |} refusing tx0 (Ok ["10.0.0.1"; "10.0.0.2"]%string))) /\
  "222.237.76.118"%string = "222.237.76.118"%string /\ 8333 = 8333 /\
  exists peers, Ok ["10.0.0.1"; "10.0.0.2"]%string = Ok peers /\ In "10.0.0.2"%string peers.
Proof.
  split; [vm_compute; right; left; reflexivity|].
  apply (send_connects_to_fixed_address {| sizeof_long := 8 |} refusing tx0
           (Ok ["10.0.0.1"; "10.0.0.2"]%string) "10.0.0.2").
  vm_compute. right. left. reflexivity.
Defined.

Lemma send_without_payload_sends_only_version_witness :
  txPayload tx0 = None /\
  exists m,
    In (Sent m) (fst (send {| sizeof_long := 8 |} friendly tx0 (Ok ["10.0.0.1"%string]))) /\
    exists a,
      getVersionMsg {| sizeof_long := 8 |} (clock friendly a) (getrandbits friendly a)
        (netaddr_local friendly) = Ok m.
Proof.
  split; [reflexivity|].
  eexists. split; [vm_compute; right; left; reflexivity|].
  apply (send_without_payload_sends_only_version {| sizeof_long := 8 |} friendly tx0
           (Ok ["10.0.0.1"%string])); [reflexivity|].
  vm_compute. right. left. reflexivity.
Defined.

Lemma send_before_signing_raises_witness :
  txPayload tx0 = None /\
  (forall k, net friendly 0%nat k = SockOk) /\
  exists version,
    getVersionMsg {| sizeof_long := 8 |} (clock friendly 0%nat)
      (getrandbits friendly 0%nat) (netaddr_local friendly) = Ok version /\
    send {| sizeof_long := 8 |} friendly tx0 (Ok ["10.0.0.1"; "10.0.0.2"]%string) =
      ([Connect "10.0.0.1" "222.237.76.118" 8333; Sent version], Raise AttributeError).
Proof.
  split; [reflexivity|]. split; [reflexivity|].
  eexists. split; [vm_compute; reflexivity|].
  apply (send_before_signing_raises {| sizeof_long := 8 |} friendly tx0 "10.0.0.1"
           ["10.0.0.2"%string]);
    [reflexivity | reflexivity | vm_compute; reflexivity].
Defined.

Lemma send_after_signing_witness :
  exists self' payload version,
    makeSignedTx Secp256k1.lib 5 (createOutputs tx0 10000 1000 1000) counting_nonce
      (hexify main_id) 1 = Done (Ok (self', payload)) /\
    (forall k, net friendly 0%nat k = SockOk) /\
    getVersionMsg {| sizeof_long := 8 |} (clock friendly 0%nat)
      (getrandbits friendly 0%nat) (netaddr_local friendly) = Ok version /\
    exists (digest sig raw : bytes),
      txDigest (createOutputs tx0 10000 1000 1000) (hexify main_id) 1 = Ok digest /\
      signTx Secp256k1.lib 5 (createOutputs tx0 10000 1000 1000) counting_nonce digest =
        Done (Ok sig) /\
      raw = wire_tx main_id 1 (varstr sig ++ varstr (pub_key (org tx0)))
              1000 (pub_key_hash (dest tx0))
              (10000 - 1000 - 1000) (pub_key_hash (org tx0)) /\
      payload = hexify raw /\
      txPayload self' = Some payload /\
      send {| sizeof_long := 8 |} friendly self' (Ok ["10.0.0.1"; "10.0.0.2"]%string) =
        match makeMessage {| sizeof_long := 8 |} "tx" raw with
        | Ok msg =>
            ([Connect "10.0.0.1" "222.237.76.118" 8333; Sent version; Sent msg], Ok tt)
        | Raise e => ([Connect "10.0.0.1" "222.237.76.118" 8333; Sent version], Raise e)
        end.
Proof.
  eexists. eexists. eexists.
  split; [vm_compute; reflexivity|]. split; [reflexivity|].
  split; [vm_compute; reflexivity|].
  apply (send_after_signing Secp256k1.lib 5 tx0 _ 10000 1000 1000 counting_nonce main_id 1
           _ {| sizeof_long := 8 |} friendly "10.0.0.1" ["10.0.0.2"%string]);
    [vm_compute; reflexivity | reflexivity | vm_compute; reflexivity].
Defined.

(** ** C4: the signature-hash preimage and the final payload *)

(** C4: when [makeSignedTx] returns a payload, the text that was hashed
    and signed is [makeRawTx]'s serialization with the locking script of
    the spent output as unlocking script, followed by the sighash type 1
    on 4 little-endian bytes; the payload is signed by [signTx] on the
    double hash of that text, and it has the same version, input count,
    reversed id, index, sequence, output count, outputs and locktime:
    it differs only in the unlocking script with its length prefix (the
    length-prefixed signature and public key) and in lacking the tag. *)
Theorem sigHashPreimage_same_fields (E : EcdsaLib) (fuel : nat)
    (self self' : Transaction) (rnd : nat -> Z) (txid : string) (vout : Z)
    (payload : string) :
  makeSignedTx E fuel self rnd txid vout = Done (Ok (self', payload)) ->
  exists (id_le index_le outs preimage : string) (sig : bytes),
    toLittleEndian (StrArg txid) = Ok id_le /\
    toLittleEndian (IntArg vout) = Ok index_le /\
    (exists l, outputs self = Some l /\ join_map makeOutput l = Ok outs) /\
    sigHashPreimage self txid vout = Ok preimage /\
    preimage =
      "01000000" +s "01" +s id_le +s index_le
      +s getLen (makeScriptPubKey (hexify (pub_key_hash (org self))))
      +s makeScriptPubKey (hexify (pub_key_hash (org self)))
      +s "ffffffff" +s "02" +s outs +s "00000000"
      +s hexify (le_bytes 4 1) /\
    signTx E fuel self rnd (sha256 (sha256 (encode_utf8 preimage))) = Done (Ok sig) /\
    payload =
      "01000000" +s "01" +s id_le +s index_le
      +s getLen (hexify (varstr sig) +s hexify (varstr (pub_key (org self))))
      +s (hexify (varstr sig) +s hexify (varstr (pub_key (org self))))
      +s "ffffffff" +s "02" +s outs +s "00000000" /\
    txPayload self' = Some payload.
Proof.
  unfold makeSignedTx.
  destruct (txDigest self txid vout) as [digest|e] eqn:Hd; [|discriminate].
  destruct (signTx E fuel self rnd digest) as [[sig|e]|] eqn:Hs; cbn [obind];
    try discriminate.
  unfold assemble_signed.
  destruct (makeRawTx self txid vout
              (hexify (varstr sig) +s hexify (varstr (pub_key (org self)))))
    as [final|e] eqn:Hr; cbn [bind]; [|discriminate].
  intros H. injection H as <- <-.
  destruct (makeRawTx_and_preimage_fields self txid vout _ final Hr)
    as (id_le & index_le & outs & Hi & Hx & Ho & Hf & Hp).
  unfold txDigest in Hd. rewrite Hp in Hd. cbn [bind] in Hd. injection Hd as <-.
  exists id_le, index_le, outs. eexists. exists sig.
  split; [exact Hi|]. split; [exact Hx|]. split; [exact Ho|].
  split; [exact Hp|]. split; [reflexivity|]. split; [exact Hs|].
  split; [exact Hf | reflexivity].
Qed.

Lemma sigHashPreimage_same_fields_witness :
  exists self' payload,
    makeSignedTx Secp256k1.lib 5 scenario counting_nonce main_txid 1 =
      Done (Ok (self', payload)) /\
    exists (id_le index_le outs preimage : string) (sig : bytes),
      toLittleEndian (StrArg main_txid) = Ok id_le /\
      toLittleEndian (IntArg 1) = Ok index_le /\
      (exists l, outputs scenario = Some l /\ join_map makeOutput l = Ok outs) /\
      sigHashPreimage scenario main_txid 1 = Ok preimage /\
      preimage =
        "01000000" +s "01" +s id_le +s index_le
        +s getLen (makeScriptPubKey (hexify (pub_key_hash (org scenario))))
        +s makeScriptPubKey (hexify (pub_key_hash (org scenario)))
        +s "ffffffff" +s "02" +s outs +s "00000000"
        +s hexify (le_bytes 4 1) /\
      signTx Secp256k1.lib 5 scenario counting_nonce
        (sha256 (sha256 (encode_utf8 preimage))) = Done (Ok sig) /\
      payload =
        "01000000" +s "01" +s id_le +s index_le
        +s getLen (hexify (varstr sig) +s hexify (varstr (pub_key (org scenario))))
        +s (hexify (varstr sig) +s hexify (varstr (pub_key (org scenario))))
        +s "ffffffff" +s "02" +s outs +s "00000000" /\
      txPayload self' = Some payload.
Proof.
  eexists. eexists. split; [vm_compute; reflexivity|].
  apply (sigHashPreimage_same_fields Secp256k1.lib 5 scenario _ counting_nonce main_txid 1).
  vm_compute. reflexivity.
Defined.
